(** * codexpy: docstring extraction and HTML rendering ([codex.py])

    A shallow embedding of [codex.py].  Python [str] values are sequences of
    Unicode code points; file paths follow [posixpath].  The collaborators
    the program delegates to ([chardet], the [ast] parser, [pygments], the
    file system) are section variables.  [print] only writes progress lines
    to standard output and is left out. *)

From Stdlib Require Import List NArith ZArith Lia Bool Arith.
From Stdlib Require Strings.String.
From Stdlib Require Import Strings.Ascii.
Import String.StringSyntax.
From Equations Require Import Equations.
Import ListNotations.

(** ** Python strings *)

Module PyStr.

(** A Python [str]: a sequence of code points. *)
Definition pystr := list N.

Definition str_eqb (a b : pystr) : bool :=
  if list_eq_dec N.eq_dec a b then true else false.

(** Source literals are ASCII; [lit] reads one as a [str]. *)
Definition lit (s : String.string) : pystr :=
  List.map N_of_ascii (String.list_ascii_of_string s).
Arguments lit s%_string_scope.

(** The double quote character. *)
Definition dq : pystr := [34%N].

(** Truthiness of a [str]: [if s:]. *)
Definition truthy (s : pystr) : bool :=
  match s with [] => false | _ :: _ => true end.

(** [str.isspace] on one code point ([_PyUnicode_IsWhitespace]). *)
Definition is_space (c : N) : bool :=
  ((9 <=? c) && (c <=? 13) || (28 <=? c) && (c <=? 32)
   || (c =? 133) || (c =? 160) || (c =? 5760)
   || (8192 <=? c) && (c <=? 8202)
   || (c =? 8232) || (c =? 8233) || (c =? 8239) || (c =? 8287)
   || (c =? 12288))%N.

(** [str.lstrip()], [str.rstrip()], [str.strip()] with no argument. *)
Fixpoint lstrip (s : pystr) : pystr :=
  match s with
  | [] => []
  | c :: s' => if is_space c then lstrip s' else s
  end.

Definition rstrip (s : pystr) : pystr := rev (lstrip (rev s)).

Definition strip (s : pystr) : pystr := rstrip (lstrip s).

(** Line boundaries of [str.splitlines] ([_PyUnicode_IsLinebreak]). *)
Definition is_linebreak (c : N) : bool :=
  ((10 <=? c) && (c <=? 13) || (28 <=? c) && (c <=? 30)
   || (c =? 133) || (c =? 8232) || (c =? 8233))%N.

(** [str.splitlines()] without [keepends]: a carriage return followed by a
    line feed is one boundary, and a final line without a terminator is kept
    when it is not empty.  [cur] is the line read so far, reversed. *)
Fixpoint splitlines_from (cur : pystr) (s : pystr) : list pystr :=
  match s with
  | [] => match cur with [] => [] | _ :: _ => [rev cur] end
  | c :: s' =>
      if is_linebreak c then
        match c, s' with
        | 13%N, 10%N :: s'' => rev cur :: splitlines_from [] s''
        | _, _ => rev cur :: splitlines_from [] s'
        end
      else splitlines_from (c :: cur) s'
  end.

Definition splitlines (s : pystr) : list pystr := splitlines_from [] s.

(** [sep.join(parts)]. *)
Fixpoint join (sep : pystr) (parts : list pystr) : pystr :=
  match parts with
  | [] => []
  | [p] => p
  | p :: ps => p ++ sep ++ join sep ps
  end.

(** A slice bound as [PySlice_AdjustIndices] clamps it for step 1: a
    negative index counts from the end. *)
Definition adjust_index (len i : Z) : Z :=
  if (i <? 0)%Z then Z.max 0 (i + len) else Z.min i len.

(** [xs[start:stop]]. *)
Definition py_slice {A} (xs : list A) (start stop : Z) : list A :=
  let len := Z.of_nat (length xs) in
  let lo := adjust_index len start in
  let hi := adjust_index len stop in
  firstn (Z.to_nat (hi - lo)) (skipn (Z.to_nat lo) xs).

(** [s.startswith(p)]. *)
Fixpoint startswith (p s : pystr) : bool :=
  match p, s with
  | [], _ => true
  | _ :: _, [] => false
  | a :: p', b :: s' => (a =? b)%N && startswith p' s'
  end.

(** [s.endswith(p)]. *)
Definition endswith (p s : pystr) : bool := startswith (rev p) (rev s).

(** [s.replace(old, new)]: every occurrence of [old], found left to right
    without overlap, becomes [new].  [skip] counts the characters of the
    occurrence being replaced that are still to be dropped. *)
Fixpoint replace_from (old new : pystr) (skip : nat) (s : pystr) : pystr :=
  match s with
  | [] => []
  | c :: s' =>
      match skip with
      | S k => replace_from old new k s'
      | O =>
          if startswith old s
          then new ++ replace_from old new (length old - 1) s'
          else c :: replace_from old new 0 s'
      end
  end.

Definition replace (old new s : pystr) : pystr :=
  match old with
  | [] => new ++ flat_map (fun c => c :: new) s
  | _ :: _ => replace_from old new 0 s
  end.

End PyStr.
Import PyStr.

(** ** POSIX paths ([posixpath]) *)

Module PosixPath.

Definition sep : pystr := lit "/".

(** [os.path.basename(p)]: what follows the last slash. *)
Definition basename (p : pystr) : pystr :=
  fold_left (fun acc c => if (c =? 47)%N then [] else acc ++ [c]) p [].

(** [os.path.join(a, b)]. *)
Definition join (a b : pystr) : pystr :=
  if startswith sep b then b
  else if negb (truthy a) || endswith sep a then a ++ b
  else a ++ sep ++ b.

End PosixPath.

(** ** Exceptions *)

(** The exceptions [parse_file] tells apart; every other exception is an
    [OtherException] carrying its class name. *)
Inductive exn : Type :=
| SyntaxError
| UnicodeDecodeError
| OtherException (cls : pystr).

Inductive result (A : Type) : Type :=
| Ok (a : A)
| Raise (e : exn).
Arguments Ok {A} a.
Arguments Raise {A} e.

Definition bind {A B} (m : result A) (k : A -> result B) : result B :=
  match m with
  | Ok a => k a
  | Raise e => Raise e
  end.

Notation "x <- m ;; k" := (bind m (fun x => k))
  (at level 61, m at next level, right associativity).

(** ** Syntax trees ([ast]) *)

(** [type(node)]: the four classes [extract_docstring] accepts, and the
    rest by class name. *)
Inductive node_type : Type :=
| Module_
| ClassDef
| FunctionDef
| AsyncFunctionDef
| OtherNode (cls : pystr).

(** [type(node).__name__]. *)
Definition type_name (t : node_type) : pystr :=
  match t with
  | Module_ => lit "Module"
  | ClassDef => lit "ClassDef"
  | FunctionDef => lit "FunctionDef"
  | AsyncFunctionDef => lit "AsyncFunctionDef"
  | OtherNode cls => cls
  end.

(** What [parse_file] reads of an [ast] node.  An attribute the node does
    not have is [None]: a [Module] has neither [name] nor [lineno], and a
    tree built before Python 3.8 has no [end_lineno].  [get_docstring] is
    the value of [ast.get_docstring(node)], [child_nodes] the sequence
    [ast.iter_child_nodes(node)]. *)
#[local] Unset Elimination Schemes.
Inductive node : Type :=
  Node {
    ntype : node_type;
    name : option pystr;
    lineno : option Z;
    end_lineno : option Z;
    get_docstring : option pystr;
    child_nodes : list node
  }.
#[local] Set Elimination Schemes.

Fixpoint node_size (n : node) : nat :=
  match n with
  | Node _ _ _ _ _ cs => S (list_sum (map node_size cs))
  end.

Definition forest_size (ns : list node) : nat := list_sum (map node_size ns).

(** [ast.walk(node)]:
<<
    todo = deque([node])
    while todo:
        node = todo.popleft()
        todo.extend(iter_child_nodes(node))
        yield node
>>
    [walk_queue todo] is the sequence the loop yields from queue [todo]. *)
Equations? walk_queue (todo : list node) : list node
  by wf (forest_size todo) lt :=
  walk_queue [] := [];
  walk_queue (n :: todo) := n :: walk_queue (todo ++ child_nodes n).
Proof.
  unfold forest_size. rewrite map_app, list_sum_app.
  destruct n; simpl. lia.
Qed.

Definition walk (n : node) : list node := walk_queue [n].

(** ** Extraction ([extract_docstring], [parse_file]) *)

(** [isinstance(node, (ast.Module, ast.ClassDef, ast.FunctionDef,
    ast.AsyncFunctionDef))]. *)
Definition is_documentable (t : node_type) : bool :=
  match t with
  | Module_ | ClassDef | FunctionDef | AsyncFunctionDef => true
  | OtherNode _ => false
  end.

Definition extract_docstring (n : node) : option pystr :=
  if negb (is_documentable (ntype n)) then None
  else
    match get_docstring n with
    | Some docstring => if truthy docstring then Some (strip docstring) else None
    | None => None
    end.

(** One entry of the list [parse_file] returns (a dict with the keys
    [type], [name], [docstring], [file], [fileName], [code]). *)
Record DocRecord : Type :=
  mkDoc {
    doc_type : pystr;
    doc_name : pystr;
    doc_docstring : pystr;
    doc_file : pystr;
    doc_fileName : pystr;
    doc_code : pystr
  }.

(** ['\n'.join(content.splitlines()[start_line:end_line])]. *)
Definition function_code (content : pystr) (start_line end_line : Z) : pystr :=
  PyStr.join (lit "
") (py_slice (splitlines content) start_line end_line).

(** [os.path.basename(file_path).replace('.py', '')]. *)
Definition file_name_key (file_path : pystr) : pystr :=
  replace (lit ".py") [] (PosixPath.basename file_path).

(** The body of the loop over [ast.walk(tree)] for one node: the record to
    append, [None] for a node without docstring, or the [AttributeError] of
    [node.lineno] on a node that has no such attribute. *)
Definition visit_node (content file_path : pystr) (n : node)
  : result (option DocRecord) :=
  let node_type := type_name (ntype n) in
  let node_name := match name n with Some s => s | None => lit "Module" end in
  match extract_docstring n with
  | Some docstring =>
      if truthy docstring then
        match lineno n with
        | None => Raise (OtherException (lit "AttributeError"))
        | Some l =>
            let start_line := (l - 1)%Z in
            let end_line :=
              match end_lineno n with Some e => e | None => start_line end in
            Ok (Some (mkDoc node_type node_name docstring file_path
                        (file_name_key file_path)
                        (function_code content start_line end_line)))
        end
      else Ok None
  | None => Ok None
  end.

(** The loop itself, from the list [docstrings] built so far. *)
Fixpoint visit_nodes (content file_path : pystr) (nodes : list node)
    (docstrings : list DocRecord) : result (list DocRecord) :=
  match nodes with
  | [] => Ok docstrings
  | n :: rest =>
      r <- visit_node content file_path n ;;
      match r with
      | Some d => visit_nodes content file_path rest (docstrings ++ [d])
      | None => visit_nodes content file_path rest docstrings
      end
  end.

(** What [parse_file] does with a decoded and parsed file. *)
Definition parse_tree (content file_path : pystr) (tree : node)
  : result (list DocRecord) :=
  visit_nodes content file_path (walk tree) [].

(** ** The directory tree ([os.walk]) *)

(** What a directory holds, in the order [os.scandir] lists it.  Every
    directory can be listed and none is a symbolic link (the walk would
    list a link in [dirs] without descending into it). *)
#[local] Unset Elimination Schemes.
Inductive dirent : Type :=
| File (fname : pystr)
| Dir (dname : pystr) (entries : list dirent).
#[local] Set Elimination Schemes.

Fixpoint dirent_size (e : dirent) : nat :=
  match e with
  | File _ => 1
  | Dir _ es => S (list_sum (map dirent_size es))
  end.

(** One name of the [dirs] list [os.walk] hands to its caller, with the
    listing [os.walk] reads when it later descends into that name. *)
Definition subdir : Type := (pystr * list dirent)%type.

Definition subdirs (es : list dirent) : list subdir :=
  flat_map (fun e => match e with Dir n sub => [(n, sub)] | File _ => [] end) es.

Definition nondirs (es : list dirent) : list pystr :=
  flat_map (fun e => match e with File n => [n] | Dir _ _ => [] end) es.

(** [x in dirs]. *)
Definition in_dirs (x : pystr) (dirs : list subdir) : bool :=
  existsb (fun d => str_eqb (fst d) x) dirs.

(** [dirs.remove(x)]: the first entry equal to [x] goes. *)
Fixpoint remove_dir (x : pystr) (dirs : list subdir) : list subdir :=
  match dirs with
  | [] => []
  | d :: rest => if str_eqb (fst d) x then rest else d :: remove_dir x rest
  end.

(** [if x in dirs: dirs.remove(x)]. *)
Definition discard (x : pystr) (dirs : list subdir) : list subdir :=
  if in_dirs x dirs then remove_dir x dirs else dirs.

(** The in-place edit [process_project] makes to [dirs] before the walk
    descends. *)
Definition prune_dirs (dirs : list subdir) : list subdir :=
  discard (lit "__pycache__") (discard (lit ".git") (discard (lit "venv") dirs)).

Definition stack_size (stack : list subdir) : nat :=
  list_sum (map (fun d => S (list_sum (map dirent_size (snd d)))) stack).

(** [os.walk(top)], top down, as [process_project] drives it: the triples
    [(root, dirs, files)] in the order they are yielded, [dirs] being the
    list after the caller's edit.  The walk keeps a stack of directories
    still to list (its head is the next one); the sub-directories left in
    [dirs] are pushed so that they are listed in order. *)
Equations? walk_stack (stack : list subdir)
  : list (pystr * list pystr * list pystr)
  by wf (stack_size stack) lt :=
  walk_stack [] := [];
  walk_stack ((top, es) :: stack) :=
    (top, map fst (prune_dirs (subdirs es)), nondirs es)
    :: walk_stack
         (map (fun d => (PosixPath.join top (fst d), snd d))
              (prune_dirs (subdirs es)) ++ stack).
Proof.
  assert (Hrm : forall x l, stack_size (remove_dir x l) <= stack_size l).
  { intros x l. induction l as [|d l IH]; [apply Nat.le_refl|].
    unfold stack_size in *. simpl. destruct (str_eqb (fst d) x); simpl; lia. }
  assert (Hdis : forall x l, stack_size (discard x l) <= stack_size l).
  { intros x l. unfold discard.
    destruct (in_dirs x l); [apply Hrm|apply Nat.le_refl]. }
  assert (Hsub : forall l,
             stack_size (subdirs l) <= list_sum (map dirent_size l)).
  { intros l. induction l as [|e l IH]; [apply Nat.le_refl|].
    unfold stack_size in *. destruct e; simpl in *; lia. }
  pose proof (Hdis (lit "__pycache__")
                (discard (lit ".git") (discard (lit "venv") (subdirs es)))).
  pose proof (Hdis (lit ".git") (discard (lit "venv") (subdirs es))).
  pose proof (Hdis (lit "venv") (subdirs es)).
  pose proof (Hsub es).
  unfold prune_dirs, stack_size in *.
  rewrite map_app, list_sum_app, map_map. simpl. lia.
Qed.

Definition os_walk (project_path : pystr) (es : list dirent)
  : list (pystr * list pystr * list pystr) :=
  walk_stack [(project_path, es)].

(** ** The page template ([generate_html]) *)

Definition html_head : pystr :=
  lit "
    <!DOCTYPE html>
    <html lang=" ++ dq ++ lit "en" ++ dq ++ lit ">
    <head>
        <meta charset=" ++ dq ++ lit "UTF-8" ++ dq ++ lit ">
        <meta name=" ++ dq ++ lit "viewport" ++ dq ++ lit " content="
  ++ dq ++ lit "width=device-width, initial-scale=1.0" ++ dq ++ lit ">
        <title>tg-poster</title>
        <style>
            body {
                font-family: Arial, sans-serif;
                margin: 0;
                padding: 0;
                display: flex;
            }
            .sidebar {
                width: 250px;
                background-color: #f4f4f4;
                padding: 20px;
                height: 100vh;
                overflow-y: auto;
                box-shadow: 2px 0 5px rgba(0, 0, 0, 0.1);
            }
            .sidebar h2 {
                margin-top: 0;
            }
            .sidebar ul {
                list-style: none;
                padding: 0;
            }
            .sidebar ul li {
                margin: 10px 0;
            }
            .sidebar ul li a {
                text-decoration: none;
                color: #333;
                font-weight: bold;
            }
            .sidebar ul li a:hover {
                color: #007BFF;
            }
            .sidebar .file {
                cursor: pointer;
                font-weight: bold;
            }
            .sidebar .file ul {
                display: none;
                margin-left: 15px;
            }
            .content {
                flex: 1;
                padding: 20px;
                overflow-y: auto;
            }
            .docstring {
                margin-bottom: 20px;
                padding: 15px;
                border: 1px solid #ddd;
                border-radius: 5px;
                background-color: #fff;
            }
            .docstring .file {
                font-size: 0.9em;
                color: #888;
                margin-bottom: 5px;
            }
            .docstring .name {
                color: #333;
                font-size: 1.2em;
                margin-bottom: 10px;
            }
            .docstring .name .keyword {
                color: green;
            }
            .docstring .name .function-name {
                color: blue;
            }
            .docstring .doc {
                color: #666;
                white-space: pre-wrap;
            }
            .toggle-code {
                margin-top: 10px;
                color: #007BFF;
                cursor: pointer;
                text-decoration: underline;
            }
            .code-block {
                display: none;
                margin-top: 10px;
            }
            ".

Definition html_sidebar_head : pystr :=
  lit "
        </style>
    </head>
    <body>
        <div class=" ++ dq ++ lit "sidebar" ++ dq ++ lit ">
            <h2>tg-poster</h2>
            <ul>
    ".

Definition html_open (pygments_css : pystr) : pystr :=
  html_head ++ pygments_css ++ html_sidebar_head.

Definition file_item_open (file_name : pystr) : pystr :=
  lit "
            <li class=" ++ dq ++ lit "file" ++ dq ++ lit " onclick="
  ++ dq ++ lit "toggleFile('" ++ file_name ++ lit "')" ++ dq ++ lit ">
                " ++ file_name ++ lit "
                <ul id=" ++ dq ++ file_name ++ dq ++ lit ">
        ".

Definition doc_link (doc_name : pystr) : pystr :=
  lit "
                    <li><a href=" ++ dq ++ lit "#" ++ doc_name
  ++ dq ++ lit ">" ++ doc_name ++ lit "</a></li>
            ".

Definition file_item_close : pystr :=
  lit "
                </ul>
            </li>
        ".

Definition content_open : pystr :=
  lit "
            </ul>
        </div>
        <div class=" ++ dq ++ lit "content" ++ dq ++ lit ">
    ".

Definition function_header (function_keyword function_name : pystr) : pystr :=
  lit "
            <span class=" ++ dq ++ lit "keyword" ++ dq ++ lit ">"
  ++ function_keyword ++ lit "</span>
            <span class=" ++ dq ++ lit "function-name" ++ dq ++ lit ">"
  ++ function_name ++ lit "</span>
        ".

Definition doc_block (doc : DocRecord) (function_header highlighted_code : pystr) : pystr :=
  lit "
            <div class=" ++ dq ++ lit "docstring" ++ dq ++ lit " id="
  ++ dq ++ doc_name doc ++ dq ++ lit ">
                <div class=" ++ dq ++ lit "file" ++ dq ++ lit ">File: "
  ++ doc_file doc ++ lit "</div>
                <div class=" ++ dq ++ lit "name" ++ dq ++ lit ">"
  ++ function_header ++ lit "</div>
                <div class=" ++ dq ++ lit "doc" ++ dq ++ lit ">"
  ++ doc_docstring doc ++ lit "</div>
                <div class=" ++ dq ++ lit "toggle-code" ++ dq
  ++ lit " onclick=" ++ dq ++ lit "toggleCode('" ++ doc_name doc
  ++ lit "-code')" ++ dq ++ lit ">"
  ++ [1055; 1086; 1082; 1072; 1079; 1072; 1090; 1100; 32; 1082; 1086; 1076]%N
  ++ lit "</div>
                <div class=" ++ dq ++ lit "code-block" ++ dq ++ lit " id="
  ++ dq ++ doc_name doc ++ lit "-code" ++ dq ++ lit ">
                    " ++ highlighted_code ++ lit "
                </div>
            </div>
        ".

Definition html_close : pystr :=
  lit "
        </div>
        <script>
            function toggleCode(id) {
                const codeBlock = document.getElementById(id);
                if (codeBlock.style.display === " ++ dq ++ lit "none"
  ++ dq ++ lit ") {
                    codeBlock.style.display = " ++ dq ++ lit "block"
  ++ dq ++ lit ";
                } else {
                    codeBlock.style.display = " ++ dq ++ lit "none"
  ++ dq ++ lit ";
                }
            }

            function toggleFile(id) {
                const fileList = document.getElementById(id);
                if (fileList.style.display === " ++ dq ++ lit "none"
  ++ dq ++ lit ") {
                    fileList.style.display = " ++ dq ++ lit "block"
  ++ dq ++ lit ";
                } else {
                    fileList.style.display = " ++ dq ++ lit "none"
  ++ dq ++ lit ";
                }
            }
        </script>
    </body>
    </html>
    ".

(** ** The program *)

(** The list of records under each [fileName], as the dict [files] holds
    them: keys in the order they were first inserted. *)
Definition files_dict : Type := list (pystr * list DocRecord).

(** [file_name in files]. *)
Definition has_key (file_name : pystr) (files : files_dict) : bool :=
  existsb (fun kv => str_eqb (fst kv) file_name) files.

(** [files[file_name].append(doc)]. *)
Definition append_at (file_name : pystr) (doc : DocRecord) (files : files_dict)
  : files_dict :=
  map (fun kv => if str_eqb (fst kv) file_name
                 then (fst kv, snd kv ++ [doc]) else kv) files.

(** One turn of the grouping loop. *)
Definition group_doc (files : files_dict) (doc : DocRecord) : files_dict :=
  let file_name := doc_fileName doc in
  let files := if negb (has_key file_name files)
               then files ++ [(file_name, [])] else files in
  append_at file_name doc files.

Definition group_by_file (docstrings : list DocRecord) : files_dict :=
  fold_left group_doc docstrings [].

(** The outcome of a run: the two lists [process_project] builds and the
    file [generate_html] writes (its path and its text). *)
Record Run : Type :=
  mkRun {
    all_docstrings : list DocRecord;
    skipped_files : list pystr;
    written : pystr * pystr
  }.

Section Program.

(** The file system and the libraries, as the program calls them. *)
Variable read_bytes : pystr -> result (list Byte.byte).
Variable chardet_detect : list Byte.byte -> option pystr.
Variable read_text : pystr -> option pystr -> result pystr.
Variable ast_parse : pystr -> pystr -> result node.
Variable pygments_css : pystr.
Variable highlight : pystr -> pystr.

Definition detect_encoding (file_path : pystr) : result (option pystr) :=
  raw_data <- read_bytes file_path ;;
  Ok (chardet_detect raw_data).

(** The [try] block of [parse_file]. *)
Definition parse_file_try (file_path : pystr) : result (list DocRecord) :=
  encoding <- detect_encoding file_path ;;
  content <- read_text file_path encoding ;;
  tree <- ast_parse content file_path ;;
  parse_tree content file_path tree.

Definition parse_file (file_path : pystr) : list DocRecord :=
  match parse_file_try file_path with
  | Ok docstrings => docstrings
  | Raise SyntaxError => []
  | Raise UnicodeDecodeError => []
  | Raise (OtherException _) => []
  end.

(** The sidebar entry of one file. *)
Definition sidebar_item (html_content : pystr) (kv : pystr * list DocRecord)
  : pystr :=
  let html_content := html_content ++ file_item_open (fst kv) in
  let html_content :=
    fold_left (fun html doc => html ++ doc_link (doc_name doc))
              (snd kv) html_content in
  html_content ++ file_item_close.

(** The content block of one record. *)
Definition content_item (html_content : pystr) (doc : DocRecord) : pystr :=
  let function_keyword :=
    if str_eqb (doc_type doc) (lit "AsyncFunctionDef")
    then lit "async def" else lit "def" in
  let function_name := doc_name doc in
  let header := function_header function_keyword function_name in
  let highlighted_code := highlight (doc_code doc) in
  html_content ++ doc_block doc header highlighted_code.

(** The text [generate_html] builds. *)
Definition html_document (docstrings : list DocRecord) : pystr :=
  let html_content := html_open pygments_css in
  let files := group_by_file docstrings in
  let html_content := fold_left sidebar_item files html_content in
  let html_content := html_content ++ content_open in
  let html_content := fold_left content_item docstrings html_content in
  html_content ++ html_close.

(** [generate_html]: the file written, as (path, text). *)
Definition generate_html (docstrings : list DocRecord) (output_file : pystr)
  : pystr * pystr :=
  (output_file, html_document docstrings).

(** The loop over [files] of one directory; the state is
    [(all_docstrings, skipped_files)]. *)
Definition visit_file (root : pystr)
    (st : list DocRecord * list pystr) (file : pystr)
  : list DocRecord * list pystr :=
  if endswith (lit ".py") file then
    let file_path := PosixPath.join root file in
    let docstrings := parse_file file_path in
    match docstrings with
    | _ :: _ => (fst st ++ docstrings, snd st)
    | [] => (fst st, snd st ++ [file_path])
    end
  else st.

Definition visit_dir (st : list DocRecord * list pystr)
    (triple : pystr * list pystr * list pystr)
  : list DocRecord * list pystr :=
  let '(root, _, files) := triple in
  fold_left (visit_file root) files st.

Definition process_project (project_path : pystr) (es : list dirent)
    (output_file : pystr) : Run :=
  let st := fold_left visit_dir (os_walk project_path es) ([], []) in
  mkRun (fst st) (snd st) (generate_html (fst st) output_file).

End Program.

(** * Vocabulary of the properties *)

(** A string that does not start with white space. *)
Definition no_leading_space (s : pystr) : Prop :=
  match s with
  | [] => True
  | c :: _ => is_space c = false
  end.


(** The paths [process_project] hands to [parse_file], in order: the
    [.py] files of every directory the walk yields. *)
Definition py_files (triples : list (pystr * list pystr * list pystr))
  : list pystr :=
  flat_map (fun t : pystr * list pystr * list pystr =>
              map (PosixPath.join (fst (fst t)))
                  (filter (endswith (lit ".py")) (snd t)))
           triples.

Definition is_empty {A} (l : list A) : bool :=
  match l with [] => true | _ :: _ => false end.

(** What one [.py] file does to [(all_docstrings, skipped_files)], given
    the records [parse] extracts from it. *)
Definition collect_file (parse : pystr -> list DocRecord)
    (st : list DocRecord * list pystr) (file_path : pystr)
  : list DocRecord * list pystr :=
  match parse file_path with
  | _ :: _ => (fst st ++ parse file_path, snd st)
  | [] => (fst st, snd st ++ [file_path])
  end.

(** The lines numbered [first] to [last], both included and counted from
    1, of a text split into lines [ls]; a number past the end names no
    line. *)
Definition lines_through (ls : list pystr) (first last : nat) : list pystr :=
  flat_map (fun i => match nth_error ls (i - 1) with
                     | Some line => [line]
                     | None => []
                     end)
           (seq first (S last - first)).

(** [s.removesuffix(suffix)]: [s] without its trailing [suffix], and [s]
    itself when it does not end with it. *)
Definition removesuffix (suffix s : pystr) : pystr :=
  if endswith suffix s then firstn (length s - length suffix) s else s.

(** The pre-order walk of a tree: a node, then the walks of its children
    from left to right. *)
Fixpoint preorder (n : node) : list node :=
  match n with
  | Node _ _ _ _ _ cs => n :: flat_map preorder cs
  end.

(** The nodes [d] levels below the nodes [ns], from left to right. *)
Fixpoint level (d : nat) (ns : list node) : list node :=
  match d with
  | O => ns
  | S d' => level d' (flat_map child_nodes ns)
  end.

(** The first [depth] levels below [ns], one after the other. *)
Definition levels (depth : nat) (ns : list node) : list node :=
  flat_map (fun d => level d ns) (seq 0 depth).

(** The breadth-first order of a tree: the root, then its children, then
    their children, and so on, each level from left to right.  A tree has
    fewer levels than nodes. *)
Definition level_order (n : node) : list node :=
  levels (node_size n) [n].

(** The records of a parsed file come in pre-order: the loop over
    [ast.walk(tree)] gives what a loop over the pre-order walk gives. *)
Definition records_in_preorder (content file_path : pystr) (tree : node)
  : Prop :=
  parse_tree content file_path tree
  = visit_nodes content file_path (preorder tree) [].

(** [r1] comes before [r2] in [l]. *)
Definition precedes (r1 r2 : DocRecord) (l : list DocRecord) : Prop :=
  exists a b c, l = a ++ r1 :: b ++ r2 :: c.

(** The directory names [process_project] does not descend into. *)
Definition excluded (n : pystr) : bool :=
  str_eqb n (lit "venv") || str_eqb n (lit ".git")
  || str_eqb n (lit "__pycache__").

(** No name occurs twice in [names]. *)
Fixpoint distinct (names : list pystr) : bool :=
  match names with
  | [] => true
  | n :: rest => negb (existsb (str_eqb n) rest) && distinct rest
  end.

(** A directory listing as a file system gives it: the sub-directories
    of one directory have different names, at every depth. *)
Fixpoint well_formed_entry (e : dirent) : bool :=
  match e with
  | File _ => true
  | Dir _ es => distinct (map fst (subdirs es)) && forallb well_formed_entry es
  end.

Definition well_formed (es : list dirent) : bool :=
  distinct (map fst (subdirs es)) && forallb well_formed_entry es.

(** The listing of the sub-directory [n] of a directory listed [es]. *)
Fixpoint lookup_dir (n : pystr) (dirs : list subdir) : option (list dirent) :=
  match dirs with
  | [] => None
  | d :: rest => if str_eqb (fst d) n then Some (snd d) else lookup_dir n rest
  end.

(** The listing of the directory reached from a directory listed [es] by
    descending through the names [comps] in turn. *)
Fixpoint dir_at (es : list dirent) (comps : list pystr)
  : option (list dirent) :=
  match comps with
  | [] => Some es
  | n :: rest =>
      match lookup_dir n (subdirs es) with
      | Some sub => dir_at sub rest
      | None => None
      end
  end.

(** The path of that directory, as [os.walk] builds it from [top]. *)
Definition descend (top : pystr) (comps : list pystr) : pystr :=
  fold_left PosixPath.join comps top.

(** [file_path] names a file that lies, below the project directory, in a
    directory reached through names none of which is excluded. *)
Definition outside_excluded (project_path : pystr) (es : list dirent)
    (file_path : pystr) : Prop :=
  exists comps sub file,
    dir_at es comps = Some sub
    /\ In file (nondirs sub)
    /\ forallb (fun n => negb (excluded n)) comps = true
    /\ file_path = PosixPath.join (descend project_path comps) file.

(** A directory waiting on the stack of the walk: its path descends from
    the project directory through names that are not excluded. *)
Definition reachable (project_path : pystr) (es0 : list dirent) (d : subdir)
  : Prop :=
  exists comps,
    fst d = descend project_path comps
    /\ forallb (fun n => negb (excluded n)) comps = true
    /\ dir_at es0 comps = Some (snd d)
    /\ well_formed (snd d) = true.

(** What follows the first occurrence of [pat] in [s]. *)
Fixpoint text_after (pat s : pystr) : option pystr :=
  if startswith pat s then Some (skipn (length pat) s)
  else match s with
       | [] => None
       | _ :: s' => text_after pat s'
       end.

(** What precedes the first occurrence of [pat] in [s]. *)
Fixpoint text_before (pat s : pystr) : option pystr :=
  if startswith pat s then Some []
  else match s with
       | [] => None
       | c :: s' => option_map (cons c) (text_before pat s')
       end.

(** The text of the first element opened by [opening] in [s]: what lies
    between the first [opening] and the first [closing] after it. *)
Definition text_between (opening closing s : pystr) : option pystr :=
  match text_after opening s with
  | Some rest => text_before closing rest
  | None => None
  end.

(** [p] occurs in [s] as a run of consecutive characters. *)
Definition occurs (p s : pystr) : Prop := exists a b, s = a ++ p ++ b.

(** [s] starts with [p]. *)
Definition starts (p s : pystr) : Prop := exists b, s = p ++ b.

(** The sidebar entry of one file and the content block of one record, as
    pieces of text. *)
Definition sidebar_text (kv : pystr * list DocRecord) : pystr :=
  file_item_open (fst kv)
  ++ flat_map (fun doc => doc_link (doc_name doc)) (snd kv)
  ++ file_item_close.

Definition content_text (highlight : pystr -> pystr) (doc : DocRecord)
  : pystr :=
  doc_block doc
    (function_header
       (if str_eqb (doc_type doc) (lit "AsyncFunctionDef")
        then lit "async def" else lit "def")
       (doc_name doc))
    (highlight (doc_code doc)).

(** ** A sample project

    A project directory with four source files, used to run the program on
    concrete input:
<<
    ./util.py         one documented function (scenario A of the design)
    ./venv/lib.py     a documented function inside an excluded directory
    ./bad.py          a syntax error
    ./pkg/shapes.py   a documented class with a documented method, then a
                      documented function
    ./README.md
>> *)

Module Sample.

Definition tq : pystr := dq ++ dq ++ dq.

Definition util_py : pystr :=
  lit "def add(a, b):
    " ++ tq ++ lit "Add two numbers." ++ tq ++ lit "
    return a + b".

Definition lib_py : pystr :=
  lit "def vendored():
    " ++ tq ++ lit "Third-party code." ++ tq ++ lit "
".

Definition bad_py : pystr := lit "def broken(:
    pass
".

Definition shapes_py : pystr :=
  lit "class Shape:
    " ++ tq ++ lit "A shape." ++ tq ++ lit "
    def area(self):
        " ++ tq ++ lit "Its area." ++ tq ++ lit "
        return 0
def unit():
    " ++ tq ++ lit "The unit shape." ++ tq ++ lit "
    return Shape()
".

(** A node that is neither module, class nor function. *)
Definition other (cls : String.string) (line : Z) (cs : list node) : node :=
  Node (OtherNode (lit cls)) None (Some line) (Some line) None cs.
Arguments other cls%_string_scope line%_Z_scope cs.

(** A [def] spanning lines [first] to [last], as Python 3.8 and later
    parse it. *)
Definition def (nm doc : String.string) (first last : Z) (cs : list node)
  : node :=
  Node FunctionDef (Some (lit nm)) (Some first) (Some last) (Some (lit doc)) cs.
Arguments def (nm doc)%_string_scope (first last)%_Z_scope cs.

Definition module (cs : list node) : node :=
  Node Module_ None None None None cs.

Definition util_tree : node :=
  module
    [def "add" "Add two numbers." 1 3
       [other "arguments" 1 [other "arg" 1 []; other "arg" 1 []];
        other "Expr" 2 [other "Constant" 2 []];
        other "Return" 3
          [other "BinOp" 3
             [other "Name" 3 [other "Load" 3 []];
              other "Add" 3 [];
              other "Name" 3 [other "Load" 3 []]]]]].

Definition lib_tree : node :=
  module
    [def "vendored" "Third-party code." 1 2
       [other "arguments" 1 []; other "Expr" 2 [other "Constant" 2 []]]].

Definition area_def : node :=
  def "area" "Its area." 3 5
    [other "arguments" 3 [other "arg" 3 []];
     other "Expr" 4 [other "Constant" 4 []];
     other "Return" 5 [other "Constant" 5 []]].

Definition shape_class : node :=
  Node ClassDef (Some (lit "Shape")) (Some 1%Z) (Some 5%Z)
       (Some (lit "A shape."))
       [other "Expr" 2 [other "Constant" 2 []]; area_def].

Definition unit_def : node :=
  def "unit" "The unit shape." 6 8
    [other "arguments" 6 [];
     other "Expr" 7 [other "Constant" 7 []];
     other "Return" 8 [other "Call" 8 [other "Name" 8 [other "Load" 8 []]]]].

Definition shapes_tree : node := module [shape_class; unit_def].

(** A function whose docstring is only white space. *)
Definition blank_def : node :=
  def "blank" "   " 1 2 [other "arguments" 1 []; other "Expr" 2 [other "Constant" 2 []]].

(** The record of [add] in [util.py]. *)
Definition add_record : DocRecord :=
  mkDoc (lit "FunctionDef") (lit "add") (lit "Add two numbers.")
        (lit "./util.py") (lit "util") util_py.

(** The record of the method [area] in [pkg/shapes.py]: lines 3 to 5. *)
Definition area_record : DocRecord :=
  mkDoc (lit "FunctionDef") (lit "area") (lit "Its area.")
        (lit "./pkg/shapes.py") (lit "shapes")
        (lit "    def area(self):
        " ++ tq ++ lit "Its area." ++ tq ++ lit "
        return 0").

(** [add] as Python 3.7 parses it: the node has no [end_lineno]. *)
Definition add_def_py37 : node :=
  Node FunctionDef (Some (lit "add")) (Some 1%Z) None
       (Some (lit "Add two numbers.")) [].

(** A module that starts with a docstring. *)
Definition documented_module : node :=
  Node Module_ None None None (Some (lit "Utilities.")) [].

Definition shape_record : DocRecord :=
  mkDoc (lit "ClassDef") (lit "Shape") (lit "A shape.")
        (lit "./pkg/shapes.py") (lit "shapes")
        (lit "class Shape:
    " ++ tq ++ lit "A shape." ++ tq ++ lit "
    def area(self):
        " ++ tq ++ lit "Its area." ++ tq ++ lit "
        return 0").

Definition unit_record : DocRecord :=
  mkDoc (lit "FunctionDef") (lit "unit") (lit "The unit shape.")
        (lit "./pkg/shapes.py") (lit "shapes")
        (lit "def unit():
    " ++ tq ++ lit "The unit shape." ++ tq ++ lit "
    return Shape()").

(** A record whose name and docstring hold characters that are special in
    HTML: the name is [<b>] and the docstring [a < b & "c" > d]. *)
Definition markup_record : DocRecord :=
  mkDoc (lit "FunctionDef") (lit "<b>")
        (lit "a < b & " ++ dq ++ lit "c" ++ dq ++ lit " > d")
        (lit "./m.py") (lit "m") (lit "def f(): pass").

Definition project : list dirent :=
  [File (lit "util.py");
   Dir (lit "venv") [File (lit "lib.py")];
   File (lit "bad.py");
   Dir (lit "pkg") [File (lit "shapes.py")];
   File (lit "README.md")].

Fixpoint lookup {A} (k : pystr) (table : list (pystr * A)) : option A :=
  match table with
  | [] => None
  | (k', v) :: rest => if str_eqb k k' then Some v else lookup k rest
  end.

(** Scenario C of the design: [a.py] next to a [venv] directory. *)
Definition scenario_c : list dirent :=
  [File (lit "a.py"); Dir (lit "venv") [File (lit "lib.py")]].

Definition sources : list (pystr * pystr) :=
  [(lit "./a.py", util_py); (lit "./util.py", util_py); (lit "./venv/lib.py", lib_py);
   (lit "./bad.py", bad_py); (lit "./pkg/shapes.py", shapes_py)].

Definition read_bytes (file_path : pystr) : result (list Byte.byte) :=
  match lookup file_path sources with
  | Some _ => Ok []
  | None => Raise (OtherException (lit "FileNotFoundError"))
  end.

Definition chardet_detect (_ : list Byte.byte) : option pystr :=
  Some (lit "ascii").

Definition read_text (file_path : pystr) (_ : option pystr) : result pystr :=
  match lookup file_path sources with
  | Some content => Ok content
  | None => Raise (OtherException (lit "FileNotFoundError"))
  end.

(** A second state of the same project: the excluded directory has grown
    and files are decoded whatever encoding was detected. *)
Definition project_later : list dirent :=
  [File (lit "util.py");
   Dir (lit "venv") [File (lit "lib.py"); File (lit "extra.py")];
   File (lit "bad.py");
   Dir (lit "pkg") [File (lit "shapes.py")];
   File (lit "README.md")].

Definition read_text_utf8 (file_path : pystr) (encoding : option pystr)
  : result pystr :=
  match encoding with
  | Some _ => read_text file_path (Some (lit "utf-8"))
  | None => read_text file_path None
  end.

Definition ast_parse (content _ : pystr) : result node :=
  match lookup content
          [(util_py, util_tree); (lib_py, lib_tree); (shapes_py, shapes_tree)]
  with
  | Some tree => Ok tree
  | None => Raise SyntaxError
  end.

Definition pygments_css : pystr := lit ".highlight .k { color: #008000 }".

(** A stand-in for [pygments.highlight]: the code inside the wrapper
    pygments emits, without the colouring. *)
Definition highlight (code : pystr) : pystr :=
  lit "<div class=" ++ dq ++ lit "highlight" ++ dq ++ lit "><pre>"
  ++ code ++ lit "</pre></div>".

Definition run : Run :=
  process_project read_bytes chardet_detect read_text ast_parse
                  pygments_css highlight
                  (lit ".") project (lit "documentation.html").

End Sample.

(** * Vocabulary of the further properties *)

From Stdlib Require Import Sorting.Permutation.

(** A node for which the loop of [parse_file] builds a record: one of the
    four documentable classes, with a docstring that is not blank. *)
Definition documented (n : node) : bool :=
  match extract_docstring n with
  | Some docstring => truthy docstring
  | None => false
  end.

(** [getattr(node, 'name', 'Module')]. *)
Definition node_name (n : node) : pystr :=
  match name n with
  | Some s => s
  | None => lit "Module"
  end.

(** Further sample data. *)
Module Sample2.

(** A module that opens with a docstring and defines the documented
    function [add]. *)
Definition documented_module_tree : node :=
  Node Module_ None None None (Some (lit "Utilities."))
       [Sample.other "Expr" 1 [Sample.other "Constant" 1 []];
        Sample.def "add" "Add two numbers." 2 4 []].

(** A second function [add], documented in another file. *)
Definition other_add_record : DocRecord :=
  mkDoc (lit "FunctionDef") (lit "add") (lit "Add two vectors.")
        (lit "./pkg/vec.py") (lit "vec") (lit "def add(u, v): pass").

(** A function whose docstring is padded with white space on both
    sides. *)
Definition padded_def : node :=
  Node FunctionDef (Some (lit "pad")) (Some 1%Z) (Some 1%Z)
       (Some (lit "  Pads.
")) [].

End Sample2.

(** The keys of [keys] in the order in which each one first occurs. *)
Definition first_occurrences (keys : list pystr) : list pystr :=
  rev (nodup (list_eq_dec N.eq_dec) (rev keys)).

(** The records of [docstrings] that carry the file key [key], in order. *)
Definition records_of_file (key : pystr) (docstrings : list DocRecord)
  : list DocRecord :=
  filter (fun doc => str_eqb (doc_fileName doc) key) docstrings.

(** [descends x y]: the walk, once it lists directory [x], goes on to list
    directory [y]: [y] is [x] or lies below a sub-directory that
    [process_project] leaves in [dirs]. *)
Inductive descends : subdir -> subdir -> Prop :=
| descends_here x : descends x x
| descends_into x d y :
    In d (prune_dirs (subdirs (snd x))) ->
    descends (PosixPath.join (fst x) (fst d), snd d) y ->
    descends x y.

(** The triple [os.walk] yields for a directory. *)
Definition triple_of (x : subdir) : pystr * list pystr * list pystr :=
  (fst x, map fst (prune_dirs (subdirs (snd x))), nondirs (snd x)).

(** The script body under [if __name__ == "__main__":], run in a current
    directory that holds [es]: [process_project('.', "documentation.html")]
    (the closing [print] is left out). *)
Definition main
    (read_bytes : pystr -> result (list Byte.byte))
    (chardet_detect : list Byte.byte -> option pystr)
    (read_text : pystr -> option pystr -> result pystr)
    (ast_parse : pystr -> pystr -> result node)
    (pygments_css : pystr) (highlight : pystr -> pystr)
    (es : list dirent) : Run :=
  let project_path := lit "." in
  let output_file := lit "documentation.html" in
  process_project read_bytes chardet_detect read_text ast_parse
                  pygments_css highlight project_path es output_file.
(** * Properties *)

(** ** Sanity checks of the string and path primitives *)

Example strip_ex : strip (lit "  a b  ") = lit "a b".
Proof. reflexivity. Qed.

Example splitlines_ex :
  splitlines ([97; 13; 10; 98; 10; 10; 99; 10]%N) = [[97]; [98]; []; [99]]%N.
Proof. reflexivity. Qed.

Example replace_ex : replace (lit "ab") (lit "-") (lit "xababay") = lit "x--ay".
Proof. reflexivity. Qed.

Example slice_ex : py_slice [1; 2; 3; 4; 5] 1 3 = [2; 3].
Proof. reflexivity. Qed.

Example slice_negative_ex : py_slice [1; 2; 3; 4; 5] (-2) 9 = [4; 5].
Proof. reflexivity. Qed.

Example basename_ex :
  PosixPath.basename (lit "./pkg/util.py") = lit "util.py".
Proof. reflexivity. Qed.

Example path_join_ex :
  PosixPath.join (PosixPath.join (lit ".") (lit "pkg")) (lit "util.py")
  = lit "./pkg/util.py".
Proof. reflexivity. Qed.

(** ** Trimming *)

Lemma lstrip_no_leading_space s : no_leading_space (lstrip s).
Proof.
  induction s as [|c s IH]; simpl; [exact I|].
  destruct (is_space c) eqn:E; [exact IH|exact E].
Qed.

Lemma lstrip_fixed s : no_leading_space s -> lstrip s = s.
Proof.
  destruct s as [|c s]; simpl; [reflexivity|].
  intros ->. reflexivity.
Qed.

Lemma lstrip_keeps_last x c :
  is_space c = false -> exists y, lstrip (x ++ [c]) = y ++ [c].
Proof.
  intros Hc. induction x as [|a x IH]; simpl.
  - rewrite Hc. exists []. reflexivity.
  - destruct (is_space a).
    + exact IH.
    + exists (a :: x). reflexivity.
Qed.

Lemma rstrip_no_leading_space s :
  no_leading_space s -> no_leading_space (rstrip s).
Proof.
  destruct s as [|c s]; simpl; [intros _; exact I|].
  intros Hc. unfold rstrip. simpl.
  destruct (lstrip_keeps_last (rev s) c Hc) as [y ->].
  rewrite rev_app_distr. simpl. exact Hc.
Qed.

Lemma strip_idempotent s : strip (strip s) = strip s.
Proof.
  unfold strip.
  assert (Hlead : no_leading_space (rstrip (lstrip s)))
    by (apply rstrip_no_leading_space, lstrip_no_leading_space).
  rewrite (lstrip_fixed _ Hlead).
  unfold rstrip at 1 2.
  rewrite rev_involutive.
  rewrite (lstrip_fixed _ (lstrip_no_leading_space _)).
  reflexivity.
Qed.

(** ** The extraction loop *)

Lemma visit_nodes_app c p a b acc :
  visit_nodes c p (a ++ b) acc
  = (acc' <- visit_nodes c p a acc ;; visit_nodes c p b acc').
Proof.
  revert acc. induction a as [|n a IH]; intros acc; simpl; [reflexivity|].
  destruct (visit_node c p n) as [[d|]|e]; simpl; auto.
Qed.

Lemma visit_nodes_extends c p nodes acc l :
  visit_nodes c p nodes acc = Ok l -> exists l', l = acc ++ l'.
Proof.
  revert acc. induction nodes as [|n nodes IH]; intros acc; simpl.
  - intros [= <-]. exists []. now rewrite app_nil_r.
  - destruct (visit_node c p n) as [[d|]|e]; simpl; intros H.
    + destruct (IH _ H) as [l' ->]. exists (d :: l').
      now rewrite <- app_assoc.
    + eauto.
    + discriminate.
Qed.

(** Every record of the result was already in the list or comes from a
    node of the walk. *)
Lemma visit_nodes_origin c p nodes acc l r :
  visit_nodes c p nodes acc = Ok l -> In r l ->
  In r acc \/ exists n, In n nodes /\ visit_node c p n = Ok (Some r).
Proof.
  revert acc. induction nodes as [|n nodes IH]; intros acc; simpl.
  - intros [= <-] Hr. now left.
  - destruct (visit_node c p n) as [[d|]|e] eqn:E; simpl; intros H Hr.
    + destruct (IH _ H Hr) as [Hin|[m [Hm Hv]]].
      * apply in_app_or in Hin as [Hin|[<-|[]]]; [now left|].
        right. exists n. split; [now left|exact E].
      * right. exists m. split; [now right|exact Hv].
    + destruct (IH _ H Hr) as [Hin|[m [Hm Hv]]]; [now left|].
      right. exists m. split; [now right|exact Hv].
    + discriminate.
Qed.

Lemma visit_node_docstring c p n r :
  visit_node c p n = Ok (Some r) ->
  exists raw, get_docstring n = Some raw
              /\ doc_docstring r = strip raw /\ strip raw <> [].
Proof.
  unfold visit_node, extract_docstring.
  destruct (negb (is_documentable (ntype n))); [discriminate|].
  destruct (get_docstring n) as [raw|]; [|discriminate].
  destruct (truthy raw); [|discriminate].
  destruct (truthy (strip raw)) eqn:T; [|discriminate].
  destruct (lineno n); [|discriminate].
  intros [= <-]. exists raw. simpl. repeat split.
  intros E. rewrite E in T. discriminate.
Qed.

(** ** The collecting loop *)

Section Collect.

Variable read_bytes : pystr -> result (list Byte.byte).
Variable chardet_detect : list Byte.byte -> option pystr.
Variable read_text : pystr -> option pystr -> result pystr.
Variable ast_parse : pystr -> pystr -> result node.

#[local] Abbreviation parse_try :=
  (parse_file_try read_bytes chardet_detect read_text ast_parse).
#[local] Abbreviation parse :=
  (parse_file read_bytes chardet_detect read_text ast_parse).
#[local] Abbreviation on_file :=
  (visit_file read_bytes chardet_detect read_text ast_parse).
#[local] Abbreviation on_dir :=
  (visit_dir read_bytes chardet_detect read_text ast_parse).
#[local] Abbreviation collect := (collect_file parse).

Lemma visit_files_collect root files st :
  fold_left (on_file root) files st
  = fold_left collect
      (map (PosixPath.join root) (filter (endswith (lit ".py")) files)) st.
Proof.
  revert st. induction files as [|f files IH]; intros st; simpl; [reflexivity|].
  rewrite IH. unfold visit_file at 1.
  destruct (endswith (lit ".py") f); simpl; [|reflexivity].
  unfold collect_file at 3.
  destruct (parse (PosixPath.join root f)); reflexivity.
Qed.

Lemma visit_dirs_collect triples st :
  fold_left on_dir triples st = fold_left collect (py_files triples) st.
Proof.
  revert st. induction triples as [|[[root dirs] files] triples IH];
    intros st; simpl; [reflexivity|].
  rewrite fold_left_app, IH. f_equal. apply visit_files_collect.
Qed.

Lemma collect_files_result paths st :
  fold_left collect paths st
  = (fst st ++ flat_map parse paths,
     snd st ++ filter (fun p => is_empty (parse p)) paths).
Proof.
  revert st. induction paths as [|p paths IH]; intros [docs skipped]; simpl.
  - now rewrite !app_nil_r.
  - rewrite IH. unfold collect_file. simpl.
    destruct (parse p) as [|d ds] eqn:E; simpl.
    + now rewrite <- app_assoc.
    + now rewrite <- app_assoc.
Qed.

Lemma parse_file_raise file_path e :
  parse_try file_path = Raise e -> parse file_path = [].
Proof.
  unfold parse_file. intros ->. destruct e; reflexivity.
Qed.

Lemma parse_file_origin file_path r :
  In r (parse file_path) ->
  exists content tree n,
    ast_parse content file_path = Ok tree
    /\ In n (walk tree)
    /\ visit_node content file_path n = Ok (Some r).
Proof.
  unfold parse_file, parse_file_try, detect_encoding.
  destruct (read_bytes file_path) as [raw|e]; simpl;
    [|destruct e; intros []].
  destruct (read_text file_path (chardet_detect raw)) as [content|e]; simpl;
    [|destruct e; intros []].
  destruct (ast_parse content file_path) as [tree|e] eqn:P; simpl;
    [|destruct e; intros []].
  unfold parse_tree.
  destruct (visit_nodes content file_path (walk tree) []) as [l|e] eqn:V;
    [|destruct e; intros []].
  intros Hr. destruct (visit_nodes_origin _ _ _ _ _ _ V Hr) as [[]|[n [Hn Hv]]].
  exists content, tree, n. auto.
Qed.

End Collect.

(** ** Failing files and the docstring filter *)

Section Run.

Variable read_bytes : pystr -> result (list Byte.byte).
Variable chardet_detect : list Byte.byte -> option pystr.
Variable read_text : pystr -> option pystr -> result pystr.
Variable ast_parse : pystr -> pystr -> result node.
Variable pygments_css : pystr.
Variable highlight : pystr -> pystr.

#[local] Abbreviation parse_try :=
  (parse_file_try read_bytes chardet_detect read_text ast_parse).
#[local] Abbreviation parse :=
  (parse_file read_bytes chardet_detect read_text ast_parse).
#[local] Abbreviation run_project :=
  (process_project read_bytes chardet_detect read_text ast_parse
                   pygments_css highlight).

Lemma run_all_docstrings project_path es output_file :
  all_docstrings (run_project project_path es output_file)
  = flat_map parse (py_files (os_walk project_path es)).
Proof.
  unfold process_project. simpl.
  rewrite visit_dirs_collect, collect_files_result. reflexivity.
Qed.

Lemma run_skipped_files project_path es output_file :
  skipped_files (run_project project_path es output_file)
  = filter (fun p => is_empty (parse p)) (py_files (os_walk project_path es)).
Proof.
  unfold process_project. simpl.
  rewrite visit_dirs_collect, collect_files_result. reflexivity.
Qed.

(** C4.  A file whose processing raises (a syntax error, a decode error or
    any other exception) yields no record and is appended to the skipped
    files, and the files before and after it are processed as if it were
    not there: the records of the run are those of the other files, in
    order, and the skipped list is theirs with this path in its place. *)
Theorem failing_file_is_skipped project_path es output_file
    before file_path after e :
  py_files (os_walk project_path es) = before ++ file_path :: after ->
  parse_try file_path = Raise e ->
  parse file_path = []
  /\ all_docstrings (run_project project_path es output_file)
     = flat_map parse before ++ flat_map parse after
  /\ skipped_files (run_project project_path es output_file)
     = filter (fun p => is_empty (parse p)) before
       ++ file_path :: filter (fun p => is_empty (parse p)) after.
Proof.
  intros Hfiles Hraise.
  pose proof (parse_file_raise _ _ _ _ _ _ Hraise) as Hnil.
  split; [exact Hnil|].
  rewrite run_all_docstrings, run_skipped_files, Hfiles.
  rewrite flat_map_app, filter_app. simpl. rewrite Hnil. simpl.
  split; reflexivity.
Qed.

(** C5.  A node whose documentation text is absent or blank yields no
    record; every record of a run has a docstring that is not empty, also
    after trimming; and the renderer is given exactly these records. *)
Theorem docstring_never_blank project_path es output_file :
  (forall content file_path n,
      (forall raw, get_docstring n = Some raw -> strip raw = []) ->
      visit_node content file_path n = Ok None)
  /\ (forall r,
         In r (all_docstrings (run_project project_path es output_file)) ->
         doc_docstring r <> [] /\ strip (doc_docstring r) <> [])
  /\ written (run_project project_path es output_file)
     = generate_html pygments_css highlight
         (all_docstrings (run_project project_path es output_file))
         output_file.
Proof.
  split; [|split].
  - intros content file_path n Hblank.
    unfold visit_node, extract_docstring.
    destruct (negb (is_documentable (ntype n))); [reflexivity|].
    destruct (get_docstring n) as [raw|]; [|reflexivity].
    rewrite (Hblank raw eq_refl).
    destruct (truthy raw); reflexivity.
  - intros r Hr. rewrite run_all_docstrings in Hr.
    apply in_flat_map in Hr as [file_path [_ Hr]].
    apply parse_file_origin in Hr as (content & tree & n & _ & _ & Hv).
    apply visit_node_docstring in Hv as (raw & _ & Hdoc & Hne).
    rewrite Hdoc, strip_idempotent. split; exact Hne.
  - reflexivity.
Qed.

End Run.

Lemma failing_file_is_skipped_witness :
  skipped_files Sample.run = [lit "./bad.py"]
  /\ map doc_name (all_docstrings Sample.run)
     = [lit "add"; lit "Shape"; lit "unit"; lit "area"].
Proof.
  destruct (failing_file_is_skipped
              Sample.read_bytes Sample.chardet_detect Sample.read_text
              Sample.ast_parse Sample.pygments_css Sample.highlight
              (lit ".") Sample.project (lit "documentation.html")
              [lit "./util.py"] (lit "./bad.py") [lit "./pkg/shapes.py"]
              SyntaxError)
    as (_ & Hdocs & Hskipped).
  - vm_compute. reflexivity.
  - vm_compute. reflexivity.
  - unfold Sample.run. rewrite Hdocs, Hskipped.
    split; vm_compute; reflexivity.
Defined.

Lemma docstring_never_blank_witness :
  visit_node Sample.util_py (lit "./util.py") Sample.blank_def = Ok None
  /\ In Sample.add_record (all_docstrings Sample.run)
  /\ doc_docstring Sample.add_record <> []
  /\ strip (doc_docstring Sample.add_record) <> [].
Proof.
  destruct (docstring_never_blank
              Sample.read_bytes Sample.chardet_detect Sample.read_text
              Sample.ast_parse Sample.pygments_css Sample.highlight
              (lit ".") Sample.project (lit "documentation.html"))
    as (Hskip & Hdocs & _).
  assert (Hin : In Sample.add_record (all_docstrings Sample.run))
    by (vm_compute; left; reflexivity).
  split; [|split; [exact Hin|exact (Hdocs _ Hin)]].
  apply Hskip. intros raw Hraw. injection Hraw as <-. reflexivity.
Defined.

(** ** Code snippets *)

Lemma skipn_unfold {A} (ls : list A) a :
  skipn a ls = match nth_error ls a with
               | Some x => x :: skipn (S a) ls
               | None => []
               end.
Proof.
  revert ls. induction a as [|a IH]; intros [|x ls]; simpl; try reflexivity.
  rewrite IH. destruct (nth_error ls a); reflexivity.
Qed.

Lemma lines_from (ls : list pystr) k a :
  flat_map (fun i => match nth_error ls (i - 1) with
                     | Some line => [line]
                     | None => []
                     end)
           (seq (S a) k)
  = firstn k (skipn a ls).
Proof.
  revert a. induction k as [|k IH]; intros a; [reflexivity|].
  cbn [seq flat_map]. rewrite IH.
  replace (S a - 1) with a by lia.
  rewrite (skipn_unfold ls a).
  destruct (nth_error ls a) as [x|] eqn:E; [reflexivity|].
  apply nth_error_None in E.
  rewrite skipn_all2 by lia. now rewrite firstn_nil.
Qed.

(** A slice with bounds inside [0 .. ] is a [skipn] followed by a
    [firstn]. *)
Lemma py_slice_span {A} (ls : list A) (start stop : Z) :
  (0 <= start <= stop)%Z ->
  py_slice ls start stop
  = firstn (Z.to_nat stop - Z.to_nat start) (skipn (Z.to_nat start) ls).
Proof.
  intros H. unfold py_slice, adjust_index.
  destruct (start <? 0)%Z eqn:E1; [lia|].
  destruct (stop <? 0)%Z eqn:E2; [lia|].
  destruct (Z_le_gt_dec (Z.of_nat (length ls)) start) as [Hs|Hs].
  - rewrite (skipn_all2 ls) by lia.
    rewrite (skipn_all2 ls) by lia.
    now rewrite !firstn_nil.
  - replace (Z.min start (Z.of_nat (length ls))) with start by lia.
    destruct (Z_le_gt_dec stop (Z.of_nat (length ls))) as [He|He].
    + replace (Z.min stop (Z.of_nat (length ls))) with stop by lia.
      f_equal. lia.
    + replace (Z.min stop (Z.of_nat (length ls)))
        with (Z.of_nat (length ls)) by lia.
      rewrite firstn_all2 by (rewrite length_skipn; lia).
      rewrite firstn_all2 by (rewrite length_skipn; lia).
      reflexivity.
Qed.

Lemma py_slice_empty {A} (ls : list A) (i : Z) : py_slice ls i i = [].
Proof. unfold py_slice. now rewrite Z.sub_diag. Qed.

Lemma slice_is_lines_through (ls : list pystr) (l e : Z) :
  (1 <= l <= e)%Z ->
  py_slice ls (l - 1) e = lines_through ls (Z.to_nat l) (Z.to_nat e).
Proof.
  intros H. rewrite py_slice_span by lia. unfold lines_through.
  replace (Z.to_nat l) with (S (Z.to_nat (l - 1))) by lia.
  rewrite lines_from. reflexivity.
Qed.

(** C6.  For a record whose node reports an end line, the snippet is a
    function of the file content and the line span alone, and it is made
    of the lines of the content from the first line of the declaration
    through the reported last line, both included. *)
Theorem snippet_is_line_span content file_path n l e r :
  lineno n = Some l ->
  end_lineno n = Some e ->
  (1 <= l <= e)%Z ->
  visit_node content file_path n = Ok (Some r) ->
  doc_code r = function_code content (l - 1) e
  /\ function_code content (l - 1) e
     = PyStr.join (lit "
") (lines_through (splitlines content) (Z.to_nat l) (Z.to_nat e)).
Proof.
  intros Hl He Hspan Hv. split.
  - unfold visit_node in Hv. rewrite Hl, He in Hv.
    destruct (extract_docstring n) as [d|]; [|discriminate].
    destruct (truthy d); [|discriminate].
    injection Hv as <-. reflexivity.
  - unfold function_code. now rewrite slice_is_lines_through.
Qed.

Lemma snippet_is_line_span_witness :
  doc_code Sample.area_record
  = function_code Sample.shapes_py 2 5
  /\ function_code Sample.shapes_py 2 5
     = PyStr.join (lit "
") (lines_through (splitlines Sample.shapes_py) 3 5).
Proof.
  apply (snippet_is_line_span
           Sample.shapes_py (lit "./pkg/shapes.py") Sample.area_def 3 5
           Sample.area_record);
    [reflexivity | reflexivity | lia | vm_compute; reflexivity].
Defined.

Lemma snippet_without_end_line content file_path n l r :
  lineno n = Some l ->
  end_lineno n = None ->
  visit_node content file_path n = Ok (Some r) ->
  doc_code r = [].
Proof.
  intros Hl He Hv. unfold visit_node in Hv. rewrite Hl, He in Hv.
  destruct (extract_docstring n) as [d|]; [|discriminate].
  destruct (truthy d); [|discriminate].
  injection Hv as <-. simpl. unfold function_code.
  now rewrite py_slice_empty.
Qed.

(** A documented node without [lineno] (a module) makes the loop raise, so
    the file yields no record at all. *)
Lemma documented_module_raises content file_path :
  parse_tree content file_path Sample.documented_module
  = Raise (OtherException (lit "AttributeError")).
Proof. reflexivity. Qed.

(** C2.  On a documented [def] whose node has a start line but no end line
    the snippet is the empty string, while the start line of the
    declaration is [def add(a, b):]. *)
Theorem snippet_without_end_line_is_empty :
  exists r,
    visit_node Sample.util_py (lit "./util.py") Sample.add_def_py37
    = Ok (Some r)
    /\ doc_code r = []
    /\ nth_error (splitlines Sample.util_py) 0 = Some (lit "def add(a, b):")
    /\ doc_code r <> lit "def add(a, b):".
Proof.
  destruct (visit_node Sample.util_py (lit "./util.py") Sample.add_def_py37)
    as [[r|]|e] eqn:E; try (vm_compute in E; discriminate).
  exists r.
  pose proof (snippet_without_end_line
                _ _ Sample.add_def_py37 1%Z _ eq_refl eq_refl E) as Hc.
  split; [reflexivity|]. split; [exact Hc|].
  split; [vm_compute; reflexivity|].
  rewrite Hc. discriminate.
Qed.

(** C3.  For [./conf.pytest.py] the file key is [conftest]: the interior
    [.py] of the base name is removed together with the extension, whereas
    removing the trailing extension alone leaves [conf.pytest]. *)
Theorem file_key_drops_interior_extension :
  forall content n r,
    visit_node content (lit "./conf.pytest.py") n = Ok (Some r) ->
    doc_fileName r = lit "conftest"
    /\ removesuffix (lit ".py") (PosixPath.basename (lit "./conf.pytest.py"))
       = lit "conf.pytest"
    /\ doc_fileName r
       <> removesuffix (lit ".py")
            (PosixPath.basename (lit "./conf.pytest.py")).
Proof.
  intros content n r Hv.
  assert (Hkey : doc_fileName r = file_name_key (lit "./conf.pytest.py")).
  { unfold visit_node in Hv.
    destruct (extract_docstring n) as [d|]; [|discriminate].
    destruct (truthy d); [|discriminate].
    destruct (lineno n); [|discriminate].
    injection Hv as <-. reflexivity. }
  rewrite Hkey. split; [vm_compute; reflexivity|].
  split; [vm_compute; reflexivity|].
  vm_compute. discriminate.
Qed.

Lemma file_key_drops_interior_extension_witness :
  doc_fileName
    (mkDoc (lit "FunctionDef") (lit "add") (lit "Add two numbers.")
           (lit "./conf.pytest.py") (lit "conftest") Sample.util_py)
  = lit "conftest".
Proof.
  apply (file_key_drops_interior_extension
           Sample.util_py
           (Sample.def "add" "Add two numbers." 1 3 [])).
  vm_compute. reflexivity.
Defined.

(** ** The order of the walk *)

Lemma forest_size_cons t ts :
  forest_size (t :: ts) = S (forest_size (child_nodes t)) + forest_size ts.
Proof. destruct t; reflexivity. Qed.

Lemma forest_size_app a b :
  forest_size (a ++ b) = forest_size a + forest_size b.
Proof. unfold forest_size. now rewrite map_app, list_sum_app. Qed.

Lemma levels_nil n : levels n [] = [].
Proof.
  unfold levels. generalize 0.
  induction n as [|n IH]; intros k; simpl; [reflexivity|].
  rewrite IH, app_nil_r. clear IH.
  induction k as [|k IHk]; simpl; auto.
Qed.

Lemma levels_S n ns :
  levels (S n) ns = ns ++ levels n (flat_map child_nodes ns).
Proof.
  unfold levels. cbn [seq flat_map level]. f_equal.
  rewrite <- seq_shift, flat_map_concat_map, map_map.
  now rewrite <- flat_map_concat_map.
Qed.

(** The queue of [ast.walk] holds the rest of the current level followed
    by the children of the nodes of that level already yielded. *)
Lemma walk_queue_levels s :
  forall q c n,
    forest_size (q ++ c) <= s ->
    forest_size (q ++ c) <= n ->
    walk_queue (q ++ c) = q ++ levels n (c ++ flat_map child_nodes q).
Proof.
  induction s as [|s IH]; intros q c n Hs Hn.
  - destruct q as [|t q]; [destruct c as [|t c]|].
    + simpl. now rewrite levels_nil.
    + simpl in Hs. rewrite forest_size_cons in Hs. lia.
    + simpl in Hs. rewrite forest_size_cons in Hs. lia.
  - destruct q as [|t q].
    + destruct c as [|t c]; simpl.
      * now rewrite levels_nil.
      * simpl in Hs, Hn. rewrite forest_size_cons in Hs, Hn.
        destruct n as [|n]; [lia|].
        rewrite walk_queue_equation_2, app_nil_r, levels_S. simpl.
        rewrite (IH c (child_nodes t) n).
        -- reflexivity.
        -- rewrite forest_size_app. lia.
        -- rewrite forest_size_app. lia.
    + simpl in Hs, Hn. rewrite forest_size_cons in Hs, Hn.
      simpl. rewrite walk_queue_equation_2, <- app_assoc.
      rewrite (IH q (c ++ child_nodes t) n).
      * now rewrite <- app_assoc.
      * rewrite !forest_size_app in *. lia.
      * rewrite !forest_size_app in *. lia.
Qed.

Lemma walk_level_order tree : walk tree = level_order tree.
Proof.
  unfold walk, level_order.
  assert (Hsz : forest_size ([] ++ [tree]) <= node_size tree).
  { simpl. rewrite forest_size_cons. destruct tree; simpl.
    unfold forest_size. simpl. lia. }
  pose proof (walk_queue_levels _ [] [tree] _ Hsz Hsz) as H.
  simpl in H. exact H.
Qed.

(** A node among the children of the root comes before every grandchild of
    the root. *)
Lemma walk_child_before_grandchild tree pre cls mid sibling post method :
  child_nodes tree = pre ++ cls :: mid ++ sibling :: post ->
  In method (child_nodes cls) ->
  exists a b c, walk tree = a ++ sibling :: b ++ method :: c.
Proof.
  intros Hch Hm.
  assert (Hin : In method (flat_map child_nodes (child_nodes tree))).
  { apply in_flat_map. exists cls. split; [|exact Hm].
    rewrite Hch. apply in_or_app. right. now left. }
  apply in_split in Hin as (y1 & y2 & Hy).
  assert (Hsz : 2 <= forest_size (child_nodes tree)).
  { rewrite Hch, forest_size_app, forest_size_cons, forest_size_app,
      forest_size_cons. lia. }
  rewrite walk_level_order. unfold level_order.
  destruct tree as [ty nm ln eln doc cs]. simpl in *.
  fold (forest_size cs).
  destruct (forest_size cs) as [|[|k]]; [lia|lia|].
  rewrite !levels_S. simpl. rewrite app_nil_r, Hy, Hch.
  exists (Node ty nm ln eln doc (pre ++ cls :: mid ++ sibling :: post)
          :: pre ++ cls :: mid),
    (post ++ y1),
    (y2 ++ levels k (flat_map child_nodes (y1 ++ method :: y2))).
  simpl. rewrite <- !app_assoc. simpl. rewrite <- !app_assoc. reflexivity.
Qed.

Lemma visit_nodes_two content file_path a x b y c acc rx ry l :
  visit_node content file_path x = Ok (Some rx) ->
  visit_node content file_path y = Ok (Some ry) ->
  visit_nodes content file_path (a ++ x :: b ++ y :: c) acc = Ok l ->
  exists la lb lc, l = la ++ rx :: lb ++ ry :: lc.
Proof.
  intros Hx Hy H.
  rewrite visit_nodes_app in H.
  destruct (visit_nodes content file_path a acc) as [la|e]; [|discriminate].
  simpl in H. rewrite Hx in H. simpl in H.
  rewrite visit_nodes_app in H.
  destruct (visit_nodes content file_path b (la ++ [rx])) as [lb|e] eqn:Hb;
    [|discriminate].
  simpl in H. rewrite Hy in H. simpl in H.
  apply visit_nodes_extends in Hb as [lb' ->].
  apply visit_nodes_extends in H as [lc ->].
  exists la, lb', lc. rewrite <- !app_assoc. reflexivity.
Qed.

(** C1, as stated, fails on [pkg/shapes.py]: the class [Shape] holds the
    documented method [area] and is followed by the documented function
    [unit]; a pre-order walk puts [area] before [unit], the program puts
    [unit] before [area]. *)
Lemma records_not_in_preorder :
  parse_tree Sample.shapes_py (lit "./pkg/shapes.py") Sample.shapes_tree
  = Ok [Sample.shape_record; Sample.unit_record; Sample.area_record]
  /\ visit_nodes Sample.shapes_py (lit "./pkg/shapes.py")
       (preorder Sample.shapes_tree) []
     = Ok [Sample.shape_record; Sample.area_record; Sample.unit_record]
  /\ ~ records_in_preorder Sample.shapes_py (lit "./pkg/shapes.py")
         Sample.shapes_tree.
Proof.
  assert (H1 : parse_tree Sample.shapes_py (lit "./pkg/shapes.py")
                 Sample.shapes_tree
               = Ok [Sample.shape_record; Sample.unit_record;
                     Sample.area_record])
    by (vm_compute; reflexivity).
  assert (H2 : visit_nodes Sample.shapes_py (lit "./pkg/shapes.py")
                 (preorder Sample.shapes_tree) []
               = Ok [Sample.shape_record; Sample.area_record;
                     Sample.unit_record])
    by (vm_compute; reflexivity).
  split; [exact H1|]. split; [exact H2|].
  unfold records_in_preorder. rewrite H1, H2. intros H.
  injection H as H. vm_compute in H. discriminate.
Qed.

(** C1, amended.  For a file that is read and parsed, the records come in
    the breadth-first order of the syntax tree (level by level, each level
    from left to right); so when a class among the top-level statements
    holds a documented method and a documented top-level statement follows
    the class, the record of that statement comes before the record of the
    method. *)
Theorem records_in_breadth_first_order
    read_bytes chardet_detect read_text ast_parse
    file_path raw content tree :
  read_bytes file_path = Ok raw ->
  read_text file_path (chardet_detect raw) = Ok content ->
  ast_parse content file_path = Ok tree ->
  parse_file_try read_bytes chardet_detect read_text ast_parse file_path
  = visit_nodes content file_path (level_order tree) []
  /\ forall pre cls mid sibling post method rs rm l,
       child_nodes tree = pre ++ cls :: mid ++ sibling :: post ->
       In method (child_nodes cls) ->
       visit_node content file_path sibling = Ok (Some rs) ->
       visit_node content file_path method = Ok (Some rm) ->
       parse_file_try read_bytes chardet_detect read_text ast_parse file_path
       = Ok l ->
       precedes rs rm l.
Proof.
  intros Hraw Hread Hparse.
  assert (Htry : parse_file_try read_bytes chardet_detect read_text ast_parse
                   file_path
                 = visit_nodes content file_path (walk tree) []).
  { unfold parse_file_try, detect_encoding.
    rewrite Hraw. simpl. rewrite Hread. simpl. rewrite Hparse. reflexivity. }
  split.
  - rewrite Htry, walk_level_order. reflexivity.
  - intros pre cls mid sibling post method rs rm l Hch Hm Hs Hrm Hl.
    rewrite Htry in Hl.
    destruct (walk_child_before_grandchild _ _ _ _ _ _ _ Hch Hm)
      as (a & b & c & Hw).
    rewrite Hw in Hl.
    exact (visit_nodes_two _ _ _ _ _ _ _ _ _ _ _ Hs Hrm Hl).
Qed.

Lemma records_in_breadth_first_order_witness :
  parse_file_try Sample.read_bytes Sample.chardet_detect Sample.read_text
    Sample.ast_parse (lit "./pkg/shapes.py")
  = visit_nodes Sample.shapes_py (lit "./pkg/shapes.py")
      (level_order Sample.shapes_tree) []
  /\ precedes Sample.unit_record Sample.area_record
       [Sample.shape_record; Sample.unit_record; Sample.area_record].
Proof.
  destruct (records_in_breadth_first_order
              Sample.read_bytes Sample.chardet_detect Sample.read_text
              Sample.ast_parse (lit "./pkg/shapes.py") []
              Sample.shapes_py Sample.shapes_tree)
    as [Horder Hscenario]; try (vm_compute; reflexivity).
  split; [exact Horder|].
  apply (Hscenario [] Sample.shape_class [] Sample.unit_def []
           Sample.area_def).
  - reflexivity.
  - simpl. right. left. reflexivity.
  - vm_compute. reflexivity.
  - vm_compute. reflexivity.
  - vm_compute. reflexivity.
Defined.

(** ** The directory walk *)

Lemma str_eqb_eq a b : str_eqb a b = true <-> a = b.
Proof.
  unfold str_eqb. destruct (list_eq_dec N.eq_dec a b); split; congruence.
Qed.

Lemma str_eqb_refl a : str_eqb a a = true.
Proof. now apply str_eqb_eq. Qed.

Lemma distinct_NoDup names : distinct names = true -> NoDup names.
Proof.
  induction names as [|n rest IH]; simpl; intros H; [constructor|].
  apply andb_true_iff in H as [Hn Hrest]. constructor; [|auto].
  intros Hin. apply negb_true_iff in Hn.
  assert (existsb (str_eqb n) rest = true)
    by (apply existsb_exists; exists n; split; [exact Hin|apply str_eqb_refl]).
  congruence.
Qed.

Lemma remove_dir_spec x (l : list subdir) d :
  NoDup (map fst l) -> In d (remove_dir x l) -> In d l /\ fst d <> x.
Proof.
  induction l as [|d0 rest IH]; simpl; [intros _ []|].
  intros Hnd Hin. inversion Hnd as [|? ? Hnotin Hrest]; subst.
  destruct (str_eqb (fst d0) x) eqn:E.
  - apply str_eqb_eq in E. split; [now right|].
    intros Hx. apply Hnotin. rewrite E, <- Hx. now apply in_map.
  - destruct Hin as [<-|Hin].
    + split; [now left|]. intros Hx. apply str_eqb_eq in Hx. congruence.
    + destruct (IH Hrest Hin). split; [now right|assumption].
Qed.

Lemma remove_dir_incl x (l : list subdir) d :
  In d (remove_dir x l) -> In d l.
Proof.
  induction l as [|d0 rest IH]; simpl; [intros []|].
  destruct (str_eqb (fst d0) x); [now right|].
  intros [<-|Hin]; [now left|right; auto].
Qed.

Lemma remove_dir_NoDup x (l : list subdir) :
  NoDup (map fst l) -> NoDup (map fst (remove_dir x l)).
Proof.
  induction l as [|d0 rest IH]; simpl; [auto|].
  intros Hnd. inversion Hnd as [|? ? Hnotin Hrest]; subst.
  destruct (str_eqb (fst d0) x); [exact Hrest|].
  simpl. constructor; [|auto].
  intros Hin. apply Hnotin. apply in_map_iff in Hin as (d & Hd & Hin).
  apply in_map_iff. exists d. split; [exact Hd|].
  eapply remove_dir_incl; eauto.
Qed.

Lemma discard_spec x (l : list subdir) d :
  NoDup (map fst l) -> In d (discard x l) -> In d l /\ fst d <> x.
Proof.
  unfold discard. destruct (in_dirs x l) eqn:E.
  - apply remove_dir_spec.
  - intros _ Hin. split; [exact Hin|]. intros Hx.
    assert (in_dirs x l = true); [|congruence].
    apply existsb_exists. exists d. split; [exact Hin|].
    now apply str_eqb_eq.
Qed.

Lemma discard_NoDup x (l : list subdir) :
  NoDup (map fst l) -> NoDup (map fst (discard x l)).
Proof.
  unfold discard. destruct (in_dirs x l); [apply remove_dir_NoDup|auto].
Qed.

(** What is left in [dirs] after the edit: entries of the listing, none
    with an excluded name. *)
Lemma prune_dirs_spec (l : list subdir) d :
  NoDup (map fst l) -> In d (prune_dirs l) ->
  In d l /\ excluded (fst d) = false.
Proof.
  intros Hnd Hin. unfold prune_dirs in Hin.
  apply discard_spec in Hin as [Hin H3];
    [|now apply discard_NoDup, discard_NoDup].
  apply discard_spec in Hin as [Hin H2]; [|now apply discard_NoDup].
  apply discard_spec in Hin as [Hin H1]; [|exact Hnd].
  split; [exact Hin|]. unfold excluded.
  destruct (str_eqb (fst d) (lit "venv")) eqn:E1;
    [apply str_eqb_eq in E1; congruence|].
  destruct (str_eqb (fst d) (lit ".git")) eqn:E2;
    [apply str_eqb_eq in E2; congruence|].
  destruct (str_eqb (fst d) (lit "__pycache__")) eqn:E3;
    [apply str_eqb_eq in E3; congruence|].
  reflexivity.
Qed.

Lemma lookup_dir_first (l : list subdir) d :
  NoDup (map fst l) -> In d l -> lookup_dir (fst d) l = Some (snd d).
Proof.
  induction l as [|d0 rest IH]; simpl; [intros _ []|].
  intros Hnd Hin. inversion Hnd as [|? ? Hnotin Hrest]; subst.
  destruct Hin as [->|Hin].
  - now rewrite str_eqb_refl.
  - destruct (str_eqb (fst d0) (fst d)) eqn:E; [|auto].
    apply str_eqb_eq in E. exfalso. apply Hnotin. rewrite E.
    now apply in_map.
Qed.

Lemma subdirs_In es d : In d (subdirs es) -> In (Dir (fst d) (snd d)) es.
Proof.
  unfold subdirs. intros H. apply in_flat_map in H as (e & He & Hd).
  destruct e as [f|n sub]; [destruct Hd|].
  destruct Hd as [<-|[]]. exact He.
Qed.

Lemma well_formed_subdir es d :
  well_formed es = true -> In d (subdirs es) -> well_formed (snd d) = true.
Proof.
  unfold well_formed. intros H Hd.
  apply andb_true_iff in H as [_ Hall].
  apply subdirs_In in Hd.
  rewrite forallb_forall in Hall. exact (Hall _ Hd).
Qed.

Lemma descend_snoc top comps n :
  descend top (comps ++ [n]) = PosixPath.join (descend top comps) n.
Proof. unfold descend. now rewrite fold_left_app. Qed.

Lemma dir_at_snoc es comps sub n sub' :
  dir_at es comps = Some sub ->
  lookup_dir n (subdirs sub) = Some sub' ->
  dir_at es (comps ++ [n]) = Some sub'.
Proof.
  revert es. induction comps as [|c comps IH]; simpl; intros es.
  - intros [= ->] ->. reflexivity.
  - destruct (lookup_dir c (subdirs es)); [apply IH|discriminate].
Qed.

Lemma walk_stack_reachable project_path es0 stack :
  Forall (reachable project_path es0) stack ->
  forall t, In t (walk_stack stack) ->
    exists comps sub,
      fst (fst t) = descend project_path comps
      /\ forallb (fun n => negb (excluded n)) comps = true
      /\ dir_at es0 comps = Some sub
      /\ snd t = nondirs sub.
Proof.
  funelim (walk_stack stack); intros Hstack t Hin.
  - destruct Hin.
  - inversion Hstack as [|? ? Htop Hrest]; subst.
    destruct Htop as (comps & Hpath & Hclean & Hat & Hwf).
    simpl in Hpath, Hat, Hwf.
    simp walk_stack in Hin. destruct Hin as [<-|Hin].
    + exists comps, es. simpl. auto.
    + apply H; [|exact Hin].
      apply Forall_app. split; [|exact Hrest].
      apply Forall_forall. intros d' Hd'.
      apply in_map_iff in Hd' as (d & <- & Hd).
      assert (Hnd : NoDup (map fst (subdirs es))).
      { apply distinct_NoDup. unfold well_formed in Hwf.
        now apply andb_true_iff in Hwf as [Hwf _]. }
      apply prune_dirs_spec in Hd as [Hd Hex]; [|exact Hnd].
      exists (comps ++ [fst d]). simpl. repeat split.
      * now rewrite descend_snoc, Hpath.
      * rewrite forallb_app, Hclean. simpl. now rewrite Hex.
      * eapply dir_at_snoc; [exact Hat|]. now apply lookup_dir_first.
      * eapply well_formed_subdir; eauto.
Qed.

Lemma py_files_outside_excluded project_path es file_path :
  well_formed es = true ->
  In file_path (py_files (os_walk project_path es)) ->
  outside_excluded project_path es file_path.
Proof.
  intros Hwf Hin. unfold py_files in Hin.
  apply in_flat_map in Hin as (t & Ht & Hin).
  apply in_map_iff in Hin as (file & <- & Hfile).
  apply filter_In in Hfile as [Hfile _].
  assert (Hstack : Forall (reachable project_path es) [(project_path, es)]).
  { constructor; [|constructor]. exists []. simpl. auto. }
  destruct (walk_stack_reachable _ _ _ Hstack t Ht)
    as (comps & sub & Hroot & Hclean & Hat & Hfiles).
  exists comps, sub, file. rewrite <- Hroot, <- Hfiles. auto.
Qed.

(** C7.  In a run over a directory tree, [parse_file] is called on the
    files of [py_files] and on no other, and each of them lies in a
    directory reached from the project directory through names none of
    which is [venv], [.git] or [__pycache__]. *)
Theorem excluded_directories_not_visited
    read_bytes chardet_detect read_text ast_parse pygments_css highlight
    project_path es output_file :
  well_formed es = true ->
  all_docstrings
    (process_project read_bytes chardet_detect read_text ast_parse
                     pygments_css highlight project_path es output_file)
  = flat_map (parse_file read_bytes chardet_detect read_text ast_parse)
             (py_files (os_walk project_path es))
  /\ forall file_path,
       In file_path (py_files (os_walk project_path es)) ->
       outside_excluded project_path es file_path.
Proof.
  intros Hwf. split.
  - apply run_all_docstrings.
  - intros file_path. now apply py_files_outside_excluded.
Qed.

Lemma excluded_directories_not_visited_witness :
  all_docstrings
    (process_project Sample.read_bytes Sample.chardet_detect
       Sample.read_text Sample.ast_parse Sample.pygments_css
       Sample.highlight (lit ".") Sample.scenario_c
       (lit "documentation.html"))
  = [mkDoc (lit "FunctionDef") (lit "add") (lit "Add two numbers.")
           (lit "./a.py") (lit "a") Sample.util_py]
  /\ py_files (os_walk (lit ".") Sample.scenario_c) = [lit "./a.py"]
  /\ outside_excluded (lit ".") Sample.scenario_c (lit "./a.py").
Proof.
  destruct (excluded_directories_not_visited
              Sample.read_bytes Sample.chardet_detect Sample.read_text
              Sample.ast_parse Sample.pygments_css Sample.highlight
              (lit ".") Sample.scenario_c (lit "documentation.html"))
    as [Hdocs Hout]; [reflexivity|].
  assert (Hfiles : py_files (os_walk (lit ".") Sample.scenario_c)
                   = [lit "./a.py"]) by (vm_compute; reflexivity).
  split; [|split; [exact Hfiles|]].
  - rewrite Hdocs, Hfiles. vm_compute. reflexivity.
  - apply Hout. rewrite Hfiles. left. reflexivity.
Defined.

(** ** The rendered page *)

Lemma fold_left_append {A} (f : A -> pystr) (l : list A) (html : pystr) :
  fold_left (fun h x => h ++ f x) l html = html ++ flat_map f l.
Proof.
  revert html. induction l as [|x l IH]; intros html; simpl.
  - now rewrite app_nil_r.
  - now rewrite IH, <- app_assoc.
Qed.

Section Render.

Variable pygments_css : pystr.
Variable highlight : pystr -> pystr.

Lemma html_document_text docstrings :
  html_document pygments_css highlight docstrings
  = html_head ++ pygments_css ++ html_sidebar_head
    ++ flat_map sidebar_text (group_by_file docstrings)
    ++ content_open
    ++ flat_map (content_text highlight) docstrings
    ++ html_close.
Proof.
  unfold html_document, html_open.
  rewrite (fold_left_append (content_text highlight)).
  assert (Hside : forall files html,
             fold_left (sidebar_item) files html
             = html ++ flat_map sidebar_text files).
  { induction files as [|kv files IH]; intros html; cbn [fold_left flat_map].
    - now rewrite app_nil_r.
    - rewrite IH. unfold sidebar_item. fold (sidebar_text kv).
      unfold sidebar_text at 2.
      rewrite fold_left_append. now rewrite <- !app_assoc. }
  rewrite Hside. now rewrite <- !app_assoc.
Qed.

End Render.

(** C10.  Whatever the project directory, its content, the collaborators
    and the output path, the text written has the title [tg-poster], and
    after the style sheet the first heading of the page, the heading of the
    sidebar, is [tg-poster] too. *)
Theorem title_and_heading_fixed
    read_bytes chardet_detect read_text ast_parse pygments_css highlight
    project_path es output_file :
  let html :=
    snd (written
           (process_project read_bytes chardet_detect read_text ast_parse
              pygments_css highlight project_path es output_file)) in
  text_between (lit "<title>") (lit "</title>") html = Some (lit "tg-poster")
  /\ exists rest,
       html = html_head ++ pygments_css ++ rest
       /\ text_between (lit "<h2>") (lit "</h2>") rest
          = Some (lit "tg-poster").
Proof.
  cbn zeta. unfold process_project, generate_html. cbn [written snd].
  rewrite html_document_text.
  split.
  - generalize (pygments_css ++ html_sidebar_head
                ++ flat_map sidebar_text
                     (group_by_file
                        (fst (fold_left
                                (visit_dir read_bytes chardet_detect
                                   read_text ast_parse)
                                (os_walk project_path es) ([], []))))
                ++ content_open
                ++ flat_map (content_text highlight)
                     (fst (fold_left
                             (visit_dir read_bytes chardet_detect read_text
                                ast_parse)
                             (os_walk project_path es) ([], [])))
                ++ html_close).
    intros tail. vm_compute. reflexivity.
  - eexists. split; [reflexivity|].
    generalize (flat_map sidebar_text
                  (group_by_file
                     (fst (fold_left
                             (visit_dir read_bytes chardet_detect
                                read_text ast_parse)
                             (os_walk project_path es) ([], []))))
                ++ content_open
                ++ flat_map (content_text highlight)
                     (fst (fold_left
                             (visit_dir read_bytes chardet_detect read_text
                                ast_parse)
                             (os_walk project_path es) ([], [])))
                ++ html_close).
    intros tail. vm_compute. reflexivity.
Qed.

(** C8.  Two runs, over two states of the file system and with two output
    paths, in which the walk yields the same directories and files and
    every source file gives the same records, collect the same records,
    skip the same files and write the same text. *)
Theorem same_input_same_page
    read_bytes1 chardet_detect1 read_text1 ast_parse1
    read_bytes2 chardet_detect2 read_text2 ast_parse2
    pygments_css highlight
    project_path1 es1 output_file1 project_path2 es2 output_file2 :
  let run1 :=
    process_project read_bytes1 chardet_detect1 read_text1 ast_parse1
      pygments_css highlight project_path1 es1 output_file1 in
  let run2 :=
    process_project read_bytes2 chardet_detect2 read_text2 ast_parse2
      pygments_css highlight project_path2 es2 output_file2 in
  os_walk project_path1 es1 = os_walk project_path2 es2 ->
  (forall file_path,
      In file_path (py_files (os_walk project_path1 es1)) ->
      parse_file read_bytes1 chardet_detect1 read_text1 ast_parse1 file_path
      = parse_file read_bytes2 chardet_detect2 read_text2 ast_parse2
          file_path) ->
  all_docstrings run1 = all_docstrings run2
  /\ skipped_files run1 = skipped_files run2
  /\ snd (written run1) = snd (written run2).
Proof.
  intros run1 run2 Hwalk Hparse.
  assert (Hdocs : all_docstrings run1 = all_docstrings run2).
  { unfold run1, run2. rewrite !run_all_docstrings, <- Hwalk.
    revert Hparse. generalize (py_files (os_walk project_path1 es1)).
    induction l as [|p l IH]; intros Hparse; simpl; [reflexivity|].
    rewrite (Hparse p) by now left.
    rewrite IH; [reflexivity|]. intros q Hq. apply Hparse. now right. }
  split; [exact Hdocs|]. split.
  - unfold run1, run2. rewrite !run_skipped_files, <- Hwalk.
    revert Hparse. generalize (py_files (os_walk project_path1 es1)).
    induction l as [|p l IH]; intros Hparse; simpl; [reflexivity|].
    rewrite (Hparse p) by now left.
    rewrite IH; [reflexivity|]. intros q Hq. apply Hparse. now right.
  - change (snd (written run1))
      with (html_document pygments_css highlight (all_docstrings run1)).
    rewrite Hdocs. reflexivity.
Qed.

Lemma same_input_same_page_witness :
  snd (written Sample.run)
  = snd (written
           (process_project Sample.read_bytes Sample.chardet_detect
              Sample.read_text_utf8 Sample.ast_parse Sample.pygments_css
              Sample.highlight (lit ".") Sample.project_later
              (lit "out/index.html"))).
Proof.
  apply (same_input_same_page
           Sample.read_bytes Sample.chardet_detect Sample.read_text
           Sample.ast_parse
           Sample.read_bytes Sample.chardet_detect Sample.read_text_utf8
           Sample.ast_parse
           Sample.pygments_css Sample.highlight
           (lit ".") Sample.project (lit "documentation.html")
           (lit ".") Sample.project_later (lit "out/index.html")).
  - vm_compute. reflexivity.
  - intros file_path Hin.
    assert (Hfiles : py_files (os_walk (lit ".") Sample.project)
                     = [lit "./util.py"; lit "./bad.py";
                        lit "./pkg/shapes.py"])
      by (vm_compute; reflexivity).
    rewrite Hfiles in Hin.
    destruct Hin as [<-|[<-|[<-|[]]]]; vm_compute; reflexivity.
Defined.

(** ** Names and docstrings in the page *)

Lemma occurs_app_r p a s : occurs p s -> occurs p (a ++ s).
Proof.
  intros (x & y & ->). exists (a ++ x), y. now rewrite <- app_assoc.
Qed.

Lemma occurs_app_l p s b : occurs p s -> occurs p (s ++ b).
Proof.
  intros (x & y & ->). exists x, (y ++ b). now rewrite <- !app_assoc.
Qed.

Lemma occurs_cons p c s : occurs p s -> occurs p (c :: s).
Proof. exact (occurs_app_r p [c] s). Qed.

Lemma occurs_starts p s : starts p s -> occurs p s.
Proof. intros (b & ->). now exists [], b. Qed.

Lemma starts_nil s : starts [] s.
Proof. now exists s. Qed.

Lemma starts_cons c p s : starts p s -> starts (c :: p) (c :: s).
Proof. intros (b & ->). now exists b. Qed.

Lemma starts_app v p s : starts p s -> starts (v ++ p) (v ++ s).
Proof. intros (b & ->). exists b. now rewrite <- app_assoc. Qed.

Lemma occurs_flat_map {A} (f : A -> pystr) (l : list A) x p :
  In x l -> occurs p (f x) -> occurs p (flat_map f l).
Proof.
  intros Hin Hp. apply in_split in Hin as (l1 & l2 & ->).
  rewrite flat_map_app. cbn [flat_map].
  now apply occurs_app_r, occurs_app_l.
Qed.

(** Literals are evaluated to their characters and the text is put in the
    form [c1 :: c2 :: ... :: (v ++ ...)]; an occurrence is then found by
    scanning the text. *)
Ltac spell_out :=
  unfold dq; rewrite <- ?app_assoc;
  repeat match goal with
         | |- context [lit ?s] =>
             let v := eval vm_compute in (lit s) in change (lit s) with v
         end;
  cbn [app].

Ltac match_start :=
  repeat first [apply starts_nil | apply starts_cons | apply starts_app].

Ltac scan :=
  first [ apply occurs_starts; solve [match_start]
        | apply occurs_cons; scan
        | apply occurs_app_r; scan ].

(** Every record sits in the list of some file of the grouping. *)
Lemma append_at_keeps file_name doc files r :
  (exists kv, In kv files /\ In r (snd kv)) ->
  exists kv, In kv (append_at file_name doc files) /\ In r (snd kv).
Proof.
  intros (kv & Hkv & Hr). unfold append_at.
  exists (if str_eqb (fst kv) file_name
          then (fst kv, snd kv ++ [doc]) else kv).
  split.
  - apply in_map_iff. now exists kv.
  - destruct (str_eqb (fst kv) file_name); [|exact Hr].
    simpl. apply in_or_app. now left.
Qed.

Lemma append_at_adds file_name doc files :
  has_key file_name files = true ->
  exists kv, In kv (append_at file_name doc files) /\ In doc (snd kv).
Proof.
  intros Hkey. apply existsb_exists in Hkey as (kv & Hkv & Hname).
  exists (fst kv, snd kv ++ [doc]). split.
  - apply in_map_iff. exists kv. now rewrite Hname.
  - simpl. apply in_or_app. right. now left.
Qed.

Lemma group_doc_keeps files doc r :
  (exists kv, In kv files /\ In r (snd kv)) ->
  exists kv, In kv (group_doc files doc) /\ In r (snd kv).
Proof.
  intros (kv & Hkv & Hr). unfold group_doc. apply append_at_keeps.
  exists kv. split; [|exact Hr].
  destruct (negb (has_key (doc_fileName doc) files)); [|exact Hkv].
  apply in_or_app. now left.
Qed.

Lemma group_doc_adds files doc :
  exists kv, In kv (group_doc files doc) /\ In doc (snd kv).
Proof.
  unfold group_doc. apply append_at_adds.
  destruct (has_key (doc_fileName doc) files) eqn:E; simpl; [exact E|].
  unfold has_key. rewrite existsb_app. simpl.
  rewrite str_eqb_refl. now rewrite orb_true_r.
Qed.

Lemma grouping_covers docstrings r :
  In r docstrings ->
  exists kv, In kv (group_by_file docstrings) /\ In r (snd kv).
Proof.
  unfold group_by_file.
  assert (H : forall docs files,
             In r docs \/ (exists kv, In kv files /\ In r (snd kv)) ->
             exists kv, In kv (fold_left group_doc docs files)
                        /\ In r (snd kv)).
  { induction docs as [|d docs IH]; intros files; cbn [fold_left].
    - intros [[]|H]. exact H.
    - intros [[->|Hin]|H]; apply IH.
      + right. apply group_doc_adds.
      + now left.
      + right. now apply group_doc_keeps. }
  intros Hin. apply H. now left.
Qed.

(** C9.  For every record handed to the renderer, the page contains the
    name and the docstring of the record character for character, inside
    the markup of the sidebar link, of the anchor of the content block, of
    the header, of the documentation text and of the toggle. *)
Theorem names_and_docstrings_verbatim pygments_css highlight docstrings r :
  In r docstrings ->
  let html := html_document pygments_css highlight docstrings in
  occurs (lit "<li><a href=" ++ dq ++ lit "#" ++ doc_name r ++ dq ++ lit ">"
          ++ doc_name r ++ lit "</a></li>") html
  /\ occurs (lit "<div class=" ++ dq ++ lit "docstring" ++ dq ++ lit " id="
             ++ dq ++ doc_name r ++ dq ++ lit ">") html
  /\ occurs (lit "<span class=" ++ dq ++ lit "function-name" ++ dq ++ lit ">"
             ++ doc_name r ++ lit "</span>") html
  /\ occurs (lit "<div class=" ++ dq ++ lit "doc" ++ dq ++ lit ">"
             ++ doc_docstring r ++ lit "</div>") html
  /\ occurs (lit "onclick=" ++ dq ++ lit "toggleCode('" ++ doc_name r
             ++ lit "-code')" ++ dq) html
  /\ occurs (lit "<div class=" ++ dq ++ lit "code-block" ++ dq ++ lit " id="
             ++ dq ++ doc_name r ++ lit "-code" ++ dq ++ lit ">") html.
Proof.
  intros Hin html. unfold html. rewrite html_document_text.
  assert (Hblock : forall p,
             occurs p (content_text highlight r) ->
             occurs p
               (html_head ++ pygments_css ++ html_sidebar_head
                ++ flat_map sidebar_text (group_by_file docstrings)
                ++ content_open
                ++ flat_map (content_text highlight) docstrings
                ++ html_close)).
  { intros p Hp. do 5 apply occurs_app_r. apply occurs_app_l.
    exact (occurs_flat_map _ _ _ _ Hin Hp). }
  split.
  - destruct (grouping_covers _ _ Hin) as (kv & Hkv & Hr).
    do 3 apply occurs_app_r. apply occurs_app_l.
    apply (occurs_flat_map _ _ kv _ Hkv).
    unfold sidebar_text. apply occurs_app_r, occurs_app_l.
    apply (occurs_flat_map _ _ r _ Hr).
    unfold doc_link. spell_out. scan.
  - repeat split; apply Hblock;
      unfold content_text, doc_block, function_header; spell_out; scan.
Qed.

Lemma names_and_docstrings_verbatim_witness :
  occurs (lit "<li><a href=" ++ dq ++ lit "#<b>" ++ dq ++ lit "><b></a></li>")
         (html_document Sample.pygments_css Sample.highlight
            [Sample.markup_record])
  /\ occurs (lit "<div class=" ++ dq ++ lit "doc" ++ dq ++ lit ">a < b & "
             ++ dq ++ lit "c" ++ dq ++ lit " > d</div>")
            (html_document Sample.pygments_css Sample.highlight
               [Sample.markup_record]).
Proof.
  destruct (names_and_docstrings_verbatim
              Sample.pygments_css Sample.highlight
              [Sample.markup_record] Sample.markup_record
              (or_introl eq_refl))
    as (Hlink & _ & _ & Hdoc & _).
  split; [exact Hlink|exact Hdoc].
Defined.

(** * Further properties *)

(** ** What the walk visits and what the loop returns *)

Lemma preorder_unfold n :
  preorder n = n :: flat_map preorder (child_nodes n).
Proof. destruct n; reflexivity. Qed.

Lemma walk_queue_permutation todo :
  Permutation (walk_queue todo) (flat_map preorder todo).
Proof.
  funelim (walk_queue todo); simp walk_queue; [constructor|].
  cbn [flat_map]. rewrite preorder_unfold. cbn [app].
  apply perm_skip.
  match goal with
  | IH : Permutation (walk_queue _) _ |- _ => rewrite IH
  end.
  rewrite flat_map_app. apply Permutation_app_comm.
Qed.

Lemma walk_permutation tree : Permutation (walk tree) (preorder tree).
Proof.
  unfold walk. rewrite walk_queue_permutation.
  cbn [flat_map]. now rewrite app_nil_r.
Qed.

(** X1.  [ast.walk] yields every node of the tree exactly once: its
    sequence is a rearrangement of the pre-order listing of the tree, it
    starts with the root, and it has as many entries as the tree has
    nodes. *)
Theorem walk_visits_every_node_once tree :
  Permutation (walk tree) (preorder tree)
  /\ hd_error (walk tree) = Some tree
  /\ length (walk tree) = length (preorder tree).
Proof.
  assert (Hperm : Permutation (walk tree) (preorder tree)).
  { unfold walk. rewrite walk_queue_permutation.
    cbn [flat_map]. now rewrite app_nil_r. }
  split; [exact Hperm|]. split.
  - unfold walk. now simp walk_queue.
  - now apply Permutation_length.
Qed.

Lemma visit_node_documented content file_path n :
  documented n = true ->
  match lineno n with
  | Some _ =>
      exists r, visit_node content file_path n = Ok (Some r)
                /\ doc_name r = node_name n
                /\ doc_type r = type_name (ntype n)
                /\ doc_file r = file_path
  | None =>
      visit_node content file_path n
      = Raise (OtherException (lit "AttributeError"))
  end.
Proof.
  unfold documented, visit_node, node_name.
  destruct (extract_docstring n) as [d|]; [|discriminate].
  intros ->. destruct (lineno n); [|reflexivity].
  eexists. split; [reflexivity|]. simpl. auto.
Qed.

Lemma visit_node_undocumented content file_path n :
  documented n = false -> visit_node content file_path n = Ok None.
Proof.
  unfold documented, visit_node.
  destruct (extract_docstring n) as [d|]; [|reflexivity].
  intros ->. reflexivity.
Qed.

Lemma visit_nodes_all_located content file_path nodes acc :
  (forall n, In n nodes -> documented n = true -> lineno n <> None) ->
  exists l,
    visit_nodes content file_path nodes acc = Ok (acc ++ l)
    /\ map doc_name l = map node_name (filter documented nodes).
Proof.
  revert acc. induction nodes as [|n nodes IH]; intros acc Hloc.
  - exists []. simpl. now rewrite app_nil_r.
  - cbn [visit_nodes filter].
    assert (Hrest : forall m, In m nodes -> documented m = true ->
                              lineno m <> None)
      by (intros m Hm; apply Hloc; now right).
    destruct (documented n) eqn:D.
    + pose proof (visit_node_documented content file_path n D) as Hv.
      destruct (lineno n) as [ln|] eqn:L;
        [|exfalso; apply (Hloc n (or_introl eq_refl) D); exact L].
      destruct Hv as (r & -> & Hname & _). simpl.
      destruct (IH (acc ++ [r]) Hrest) as (l & -> & Hl).
      exists (r :: l). split; [now rewrite <- app_assoc|].
      simpl. now rewrite Hname, Hl.
    + rewrite (visit_node_undocumented _ _ _ D). simpl.
      exact (IH acc Hrest).
Qed.

Lemma filter_permutation {A} (f : A -> bool) (l l' : list A) :
  Permutation l l' -> Permutation (filter f l) (filter f l').
Proof.
  induction 1 as [|x l l' _ IH|x y l|l l' l'' _ IH1 _ IH2]; simpl.
  - constructor.
  - destruct (f x); [now constructor|exact IH].
  - destruct (f x), (f y); try apply Permutation_refl.
    apply perm_swap.
  - now transitivity (filter f l').
Qed.

(** X2.  When every documented node of the tree has a line number, the
    loop succeeds and returns one record for each documented node of the
    tree and none for the others: as many records as documented nodes,
    carrying the names of those nodes in the order of the walk. *)
Theorem one_record_per_documented_node content file_path tree :
  (forall n, In n (preorder tree) -> documented n = true ->
             lineno n <> None) ->
  exists l,
    parse_tree content file_path tree = Ok l
    /\ length l = length (filter documented (preorder tree))
    /\ map doc_name l = map node_name (filter documented (walk tree)).
Proof.
  intros Hloc.
  pose proof (walk_permutation tree) as Hperm.
  destruct (visit_nodes_all_located content file_path (walk tree) [])
    as (l & Hl & Hnames).
  { intros n Hn. apply Hloc. eapply Permutation_in; eauto. }
  exists l. split; [exact Hl|]. split; [|exact Hnames].
  rewrite <- (length_map doc_name), Hnames, length_map.
  apply Permutation_length, filter_permutation, Hperm.
Qed.

Lemma one_record_per_documented_node_witness :
  exists l,
    parse_tree Sample.shapes_py (lit "./pkg/shapes.py") Sample.shapes_tree
    = Ok l
    /\ length l = 3
    /\ map doc_name l = [lit "Shape"; lit "unit"; lit "area"].
Proof.
  destruct (one_record_per_documented_node
              Sample.shapes_py (lit "./pkg/shapes.py") Sample.shapes_tree)
    as (l & Hl & Hlen & Hnames).
  - intros n Hn Hdoc.
    vm_compute in Hn.
    repeat (destruct Hn as [<-|Hn]; [vm_compute; discriminate|]).
    destruct Hn.
  - exists l. split; [exact Hl|]. split; [exact Hlen|exact Hnames].
Defined.

Lemma visit_nodes_raises content file_path nodes acc n e :
  In n nodes ->
  visit_node content file_path n = Raise e ->
  exists e', visit_nodes content file_path nodes acc = Raise e'.
Proof.
  revert acc. induction nodes as [|m nodes IH]; intros acc; [intros []|].
  intros [->|Hin] Hraise; cbn [visit_nodes].
  - rewrite Hraise. simpl. eauto.
  - destruct (visit_node content file_path m) as [[d|]|e0]; simpl; eauto.
Qed.

(** X3.  A documented node without a line number (a module that opens with
    a docstring) makes [parse_file] return no record at all for its file,
    whatever else the file documents. *)
Theorem documented_node_without_line_empties_file
    read_bytes chardet_detect read_text ast_parse
    file_path raw content tree n :
  read_bytes file_path = Ok raw ->
  read_text file_path (chardet_detect raw) = Ok content ->
  ast_parse content file_path = Ok tree ->
  In n (preorder tree) ->
  documented n = true ->
  lineno n = None ->
  parse_file read_bytes chardet_detect read_text ast_parse file_path = [].
Proof.
  intros Hraw Hread Hparse Hn Hdoc Hline.
  assert (Hw : In n (walk tree)).
  { eapply Permutation_in; [|exact Hn].
    apply Permutation_sym, walk_permutation. }
  pose proof (visit_node_documented content file_path n Hdoc) as Hv.
  rewrite Hline in Hv.
  destruct (visit_nodes_raises content file_path (walk tree) [] n _ Hw Hv)
    as [e He].
  apply (parse_file_raise _ _ _ _ _ e).
  unfold parse_file_try, detect_encoding.
  rewrite Hraw. simpl. rewrite Hread. simpl. rewrite Hparse. simpl.
  exact He.
Qed.

Lemma documented_node_without_line_empties_file_witness :
  parse_file (fun _ => Ok []) (fun _ => None)
             (fun _ _ => Ok Sample.util_py)
             (fun _ _ => Ok Sample2.documented_module_tree)
             (lit "./util.py")
  = [].
Proof.
  apply (documented_node_without_line_empties_file
           (fun _ => Ok []) (fun _ => None)
           (fun _ _ => Ok Sample.util_py)
           (fun _ _ => Ok Sample2.documented_module_tree)
           (lit "./util.py") [] Sample.util_py
           Sample2.documented_module_tree Sample2.documented_module_tree);
    try reflexivity.
  left. reflexivity.
Defined.

(** ** What a run records *)

Lemma is_empty_nil {A} (l : list A) : is_empty l = true <-> l = [].
Proof. destruct l; simpl; split; congruence. Qed.

(** X4.  The skipped files of a run are exactly the [.py] files of the walk
    that gave no record; so a file that is read and parsed without error
    but documents nothing is reported as skipped too. *)
Theorem skipped_iff_no_record
    read_bytes chardet_detect read_text ast_parse pygments_css highlight
    project_path es output_file file_path :
  (In file_path
      (skipped_files
         (process_project read_bytes chardet_detect read_text ast_parse
            pygments_css highlight project_path es output_file))
   <-> In file_path (py_files (os_walk project_path es))
       /\ parse_file read_bytes chardet_detect read_text ast_parse file_path
          = [])
  /\ (In file_path (py_files (os_walk project_path es)) ->
      parse_file_try read_bytes chardet_detect read_text ast_parse file_path
      = Ok [] ->
      In file_path
        (skipped_files
           (process_project read_bytes chardet_detect read_text ast_parse
              pygments_css highlight project_path es output_file))).
Proof.
  rewrite run_skipped_files.
  assert (Hiff : In file_path
                   (filter
                      (fun p =>
                         is_empty
                           (parse_file read_bytes chardet_detect read_text
                              ast_parse p))
                      (py_files (os_walk project_path es)))
                 <-> In file_path (py_files (os_walk project_path es))
                     /\ parse_file read_bytes chardet_detect read_text
                          ast_parse file_path = []).
  { rewrite filter_In, is_empty_nil. reflexivity. }
  split; [exact Hiff|].
  intros Hin Htry. apply Hiff. split; [exact Hin|].
  unfold parse_file. now rewrite Htry.
Qed.

Lemma skipped_iff_no_record_witness :
  In (lit "./empty.py")
     (skipped_files
        (process_project (fun _ => Ok []) (fun _ => None)
           (fun _ _ => Ok []) (fun _ _ => Ok (Sample.module []))
           Sample.pygments_css Sample.highlight
           (lit ".") [File (lit "empty.py")] (lit "documentation.html"))).
Proof.
  apply (skipped_iff_no_record
           (fun _ => Ok []) (fun _ => None)
           (fun _ _ => Ok []) (fun _ _ => Ok (Sample.module []))
           Sample.pygments_css Sample.highlight
           (lit ".") [File (lit "empty.py")] (lit "documentation.html")
           (lit "./empty.py")).
  - vm_compute. left. reflexivity.
  - vm_compute. reflexivity.
Defined.

Lemma visit_node_fields content file_path n r :
  visit_node content file_path n = Ok (Some r) ->
  doc_file r = file_path
  /\ doc_fileName r = file_name_key file_path
  /\ doc_name r = node_name n
  /\ doc_type r = type_name (ntype n)
  /\ is_documentable (ntype n) = true.
Proof.
  unfold visit_node, extract_docstring, node_name.
  destruct (is_documentable (ntype n)); simpl; [|discriminate].
  destruct (get_docstring n) as [raw|]; [|discriminate].
  destruct (truthy raw); [|discriminate].
  destruct (truthy (strip raw)); [|discriminate].
  destruct (lineno n); [|discriminate].
  intros [= <-]. simpl. auto.
Qed.

Lemma startswith_app q u v :
  startswith q u = true -> startswith q (u ++ v) = true.
Proof.
  revert u. induction q as [|a q IH]; intros [|b u]; simpl; auto;
    try discriminate.
  intros H. apply andb_true_iff in H as [-> H]. simpl. auto.
Qed.

Lemma endswith_join suffix root file :
  endswith suffix file = true ->
  endswith suffix (PosixPath.join root file) = true.
Proof.
  intros H.
  assert (Happ : forall x, endswith suffix (x ++ file) = true).
  { intros x. unfold endswith in *. rewrite rev_app_distr.
    now apply startswith_app. }
  unfold PosixPath.join.
  destruct (startswith PosixPath.sep file); [exact H|].
  destruct (negb (truthy root) || endswith PosixPath.sep root);
    [apply Happ|].
  rewrite app_assoc. apply Happ.
Qed.

(** X5.  Every record of a run names the file it comes from: its [file] is
    one of the paths handed to [parse_file], it ends in [.py], its
    [fileName] is computed from that path, and its [type] is the class name
    of a module, class or function node. *)
Theorem record_names_its_file
    read_bytes chardet_detect read_text ast_parse pygments_css highlight
    project_path es output_file r :
  In r (all_docstrings
          (process_project read_bytes chardet_detect read_text ast_parse
             pygments_css highlight project_path es output_file)) ->
  In (doc_file r) (py_files (os_walk project_path es))
  /\ endswith (lit ".py") (doc_file r) = true
  /\ doc_fileName r = file_name_key (doc_file r)
  /\ In (doc_type r)
        [lit "Module"; lit "ClassDef"; lit "FunctionDef";
         lit "AsyncFunctionDef"].
Proof.
  rewrite run_all_docstrings. intros Hr.
  apply in_flat_map in Hr as (file_path & Hpath & Hr).
  apply parse_file_origin in Hr as (content & tree & n & _ & _ & Hv).
  apply visit_node_fields in Hv as (Hfile & Hkey & _ & Htype & Hdoc).
  rewrite Hfile, Hkey, Htype. split; [exact Hpath|]. split; [|split].
  - unfold py_files in Hpath.
    apply in_flat_map in Hpath as (t & _ & Hpath).
    apply in_map_iff in Hpath as (file & <- & Hfilter).
    apply filter_In in Hfilter as [_ Hpy].
    now apply endswith_join.
  - reflexivity.
  - destruct (ntype n); simpl in *; auto; discriminate.
Qed.

Lemma record_names_its_file_witness :
  In (doc_file Sample.add_record)
     (py_files (os_walk (lit ".") Sample.project))
  /\ endswith (lit ".py") (doc_file Sample.add_record) = true.
Proof.
  destruct (record_names_its_file
              Sample.read_bytes Sample.chardet_detect Sample.read_text
              Sample.ast_parse Sample.pygments_css Sample.highlight
              (lit ".") Sample.project (lit "documentation.html")
              Sample.add_record)
    as (Hin & Hpy & _).
  - vm_compute. left. reflexivity.
  - split; [exact Hin|exact Hpy].
Defined.

(** ** File keys *)

Lemma basename_no_slash x acc :
  ~ In 47%N x ->
  fold_left (fun acc c => if (c =? 47)%N then [] else acc ++ [c]) x acc
  = acc ++ x.
Proof.
  revert acc. induction x as [|c x IH]; intros acc Hx; simpl.
  - now rewrite app_nil_r.
  - destruct (N.eqb_spec c 47) as [->|Hc]; [exfalso; apply Hx; now left|].
    rewrite IH by (intros H; apply Hx; now right).
    now rewrite <- app_assoc.
Qed.

Lemma basename_after_slash dir x :
  ~ In 47%N x -> PosixPath.basename (dir ++ lit "/" ++ x) = x.
Proof.
  intros Hx. unfold PosixPath.basename.
  rewrite fold_left_app. change (lit "/" ++ x) with (47%N :: x).
  cbn [fold_left]. rewrite N.eqb_refl. now rewrite basename_no_slash.
Qed.

Lemma replace_extension stem :
  ~ In 46%N stem ->
  replace_from (lit ".py") [] 0 (stem ++ lit ".py") = stem.
Proof.
  induction stem as [|c stem IH]; intros Hs; [reflexivity|].
  change ((c :: stem) ++ lit ".py") with (c :: (stem ++ lit ".py")).
  cbn [replace_from].
  assert (Hc : (46 =? c)%N = false).
  { apply N.eqb_neq. intros <-. apply Hs. now left. }
  change (startswith (lit ".py") (c :: stem ++ lit ".py"))
    with ((46 =? c)%N && startswith (lit "py") (stem ++ lit ".py")).
  rewrite Hc. cbn [andb].
  rewrite IH by (intros H; apply Hs; now right). reflexivity.
Qed.

(** X6.  For a source file [dir/stem.py] whose stem holds neither a dot nor
    a slash, the file key is the stem. *)
Theorem file_key_of_plain_name dir stem :
  ~ In 46%N stem ->
  ~ In 47%N stem ->
  file_name_key (dir ++ lit "/" ++ stem ++ lit ".py") = stem.
Proof.
  intros Hdot Hslash. unfold file_name_key.
  rewrite basename_after_slash.
  - change (replace (lit ".py") [] (stem ++ lit ".py"))
      with (replace_from (lit ".py") [] 0 (stem ++ lit ".py")).
    now apply replace_extension.
  - intros H. apply in_app_or in H as [H|H]; [now apply Hslash|].
    vm_compute in H. intuition discriminate.
Qed.

Lemma file_key_of_plain_name_witness :
  file_name_key (lit "./pkg" ++ lit "/" ++ lit "shapes" ++ lit ".py")
  = lit "shapes".
Proof.
  apply (file_key_of_plain_name (lit "./pkg") (lit "shapes"));
    vm_compute; intuition discriminate.
Defined.

(** ** Grouping by file *)

Lemma has_key_In key (files : files_dict) :
  has_key key files = true <-> In key (map fst files).
Proof.
  unfold has_key. rewrite existsb_exists, in_map_iff. split.
  - intros (kv & Hkv & Heq). apply str_eqb_eq in Heq. eauto.
  - intros (kv & Heq & Hkv). exists kv. split; [exact Hkv|].
    now apply str_eqb_eq.
Qed.

Lemma append_at_keys key doc (files : files_dict) :
  map fst (append_at key doc files) = map fst files.
Proof.
  unfold append_at. rewrite map_map. apply map_ext.
  intros kv. now destruct (str_eqb (fst kv) key).
Qed.

Lemma first_occurrences_snoc keys k :
  first_occurrences (keys ++ [k])
  = if in_dec (list_eq_dec N.eq_dec) k keys
    then first_occurrences keys
    else first_occurrences keys ++ [k].
Proof.
  unfold first_occurrences. rewrite rev_app_distr. cbn [rev app nodup].
  destruct (in_dec (list_eq_dec N.eq_dec) k (rev keys)) as [Hin|Hout];
    destruct (in_dec (list_eq_dec N.eq_dec) k keys) as [Hin'|Hout'];
    try reflexivity.
  - exfalso. apply Hout'. now apply in_rev.
  - exfalso. apply Hout. now apply in_rev in Hin'.
Qed.

Lemma first_occurrences_In keys k :
  In k (first_occurrences keys) <-> In k keys.
Proof.
  unfold first_occurrences. rewrite <- in_rev, nodup_In, <- in_rev.
  reflexivity.
Qed.

Lemma group_by_file_snoc docstrings doc :
  group_by_file (docstrings ++ [doc])
  = group_doc (group_by_file docstrings) doc.
Proof. unfold group_by_file. now rewrite fold_left_app. Qed.

Lemma group_doc_keys files doc :
  map fst (group_doc files doc)
  = if has_key (doc_fileName doc) files
    then map fst files
    else map fst files ++ [doc_fileName doc].
Proof.
  unfold group_doc. rewrite append_at_keys.
  destruct (has_key (doc_fileName doc) files); simpl; [reflexivity|].
  now rewrite map_app.
Qed.

Lemma grouping_keys docstrings :
  map fst (group_by_file docstrings)
  = first_occurrences (map doc_fileName docstrings).
Proof.
  induction docstrings as [|doc docstrings IH] using rev_ind;
    [reflexivity|].
  rewrite group_by_file_snoc, group_doc_keys, map_app. cbn [map].
  rewrite first_occurrences_snoc, <- IH.
  destruct (has_key (doc_fileName doc) (group_by_file docstrings)) eqn:E.
  - apply has_key_In in E. rewrite IH, first_occurrences_In in E.
    destruct (in_dec _ _ _); [reflexivity|contradiction].
  - destruct (in_dec _ _ _) as [Hin|]; [|reflexivity].
    rewrite <- first_occurrences_In, <- IH in Hin.
    apply has_key_In in Hin. congruence.
Qed.

Lemma str_eqb_sym a b : str_eqb a b = str_eqb b a.
Proof.
  destruct (str_eqb a b) eqn:E1, (str_eqb b a) eqn:E2; try reflexivity.
  - apply str_eqb_eq in E1. subst. rewrite str_eqb_refl in E2. discriminate.
  - apply str_eqb_eq in E2. subst. rewrite str_eqb_refl in E1. discriminate.
Qed.

Lemma records_of_absent_file key docstrings :
  ~ In key (map doc_fileName docstrings) ->
  records_of_file key docstrings = [].
Proof.
  unfold records_of_file.
  induction docstrings as [|d ds IH]; intros Hout; [reflexivity|].
  cbn [filter]. destruct (str_eqb (doc_fileName d) key) eqn:E.
  - apply str_eqb_eq in E. exfalso. apply Hout. now left.
  - apply IH. intros H. apply Hout. now right.
Qed.

Lemma grouping_lists docstrings kv :
  In kv (group_by_file docstrings) ->
  snd kv = records_of_file (fst kv) docstrings.
Proof.
  revert kv. induction docstrings as [|doc docstrings IH] using rev_ind;
    intros kv; [intros []|].
  rewrite group_by_file_snoc. unfold group_doc, append_at.
  intros Hin. apply in_map_iff in Hin as (kv0 & <- & Hin).
  assert (Hold : snd kv0 = records_of_file (fst kv0) docstrings).
  { destruct (has_key (doc_fileName doc) (group_by_file docstrings))
      eqn:E; cbn [negb] in Hin; [now apply IH|].
    apply in_app_or in Hin as [Hin|[<-|[]]]; [now apply IH|].
    cbn [fst snd]. symmetry. apply records_of_absent_file.
    intros Hk. rewrite <- first_occurrences_In, <- grouping_keys in Hk.
    apply has_key_In in Hk. congruence. }
  unfold records_of_file in *. rewrite filter_app. cbn [filter].
  rewrite (str_eqb_sym (doc_fileName doc)).
  destruct (str_eqb (fst kv0) (doc_fileName doc)) eqn:E; cbn [fst snd].
  - rewrite E. now rewrite Hold.
  - rewrite E. now rewrite app_nil_r.
Qed.

(** X7.  The sidebar groups of [generate_html]: the file keys come in the
    order in which each one first occurs among the records and none comes
    twice; the list under a key holds exactly the records with that key,
    in the order of the records, and is never empty. *)
Theorem grouping_by_file docstrings :
  map fst (group_by_file docstrings)
  = first_occurrences (map doc_fileName docstrings)
  /\ NoDup (map fst (group_by_file docstrings))
  /\ forall kv,
       In kv (group_by_file docstrings) ->
       snd kv = records_of_file (fst kv) docstrings /\ snd kv <> [].
Proof.
  split; [apply grouping_keys|]. split.
  - rewrite grouping_keys. unfold first_occurrences.
    apply NoDup_rev, NoDup_nodup.
  - intros kv Hin. pose proof (grouping_lists _ _ Hin) as Hlist.
    split; [exact Hlist|].
    assert (Hkey : In (fst kv) (map doc_fileName docstrings)).
    { rewrite <- first_occurrences_In, <- grouping_keys. now apply in_map. }
    apply in_map_iff in Hkey as (d & Hd & Hdin).
    rewrite Hlist. intros Hnil.
    assert (Hmem : In d (records_of_file (fst kv) docstrings)).
    { apply filter_In. split; [exact Hdin|]. now apply str_eqb_eq. }
    rewrite Hnil in Hmem. destruct Hmem.
Qed.

Lemma grouping_by_file_witness :
  snd (lit "shapes",
       [Sample.shape_record; Sample.unit_record; Sample.area_record])
  = records_of_file (lit "shapes") (all_docstrings Sample.run).
Proof.
  apply (proj2 (proj2 (grouping_by_file (all_docstrings Sample.run)))).
  vm_compute. right. left. reflexivity.
Defined.

(** ** No source file is missed *)

Lemma remove_dir_keeps x (l : list subdir) d :
  In d l -> fst d <> x -> In d (remove_dir x l).
Proof.
  induction l as [|d0 rest IH]; simpl; [intros []|].
  intros [->|Hin] Hne.
  - destruct (str_eqb (fst d) x) eqn:E; [|now left].
    apply str_eqb_eq in E. contradiction.
  - destruct (str_eqb (fst d0) x); [exact Hin|right; auto].
Qed.

Lemma discard_keeps x (l : list subdir) d :
  In d l -> fst d <> x -> In d (discard x l).
Proof.
  unfold discard. destruct (in_dirs x l); [apply remove_dir_keeps|auto].
Qed.

Lemma prune_dirs_keeps (l : list subdir) d :
  In d l -> excluded (fst d) = false -> In d (prune_dirs l).
Proof.
  intros Hin Hex. unfold excluded in Hex.
  apply orb_false_iff in Hex as [Hex H3].
  apply orb_false_iff in Hex as [H1 H2].
  unfold prune_dirs.
  repeat apply discard_keeps; try exact Hin;
    intros E; apply str_eqb_eq in E; congruence.
Qed.

Lemma lookup_dir_In n (l : list subdir) sub :
  lookup_dir n l = Some sub -> In (n, sub) l.
Proof.
  induction l as [|d rest IH]; simpl; [discriminate|].
  destruct (str_eqb (fst d) n) eqn:E.
  - intros [= <-]. apply str_eqb_eq in E. left. rewrite <- E.
    now destruct d.
  - intros H. right. auto.
Qed.

Lemma walk_stack_complete stack :
  forall x y, In x stack -> descends x y ->
              In (triple_of y) (walk_stack stack).
Proof.
  funelim (walk_stack stack); intros x y Hin Hdesc; [destruct Hin|].
  simp walk_stack. destruct Hin as [<-|Hin].
  - inversion Hdesc as [|? d ? Hd Hrest]; subst.
    + left. reflexivity.
    + right.
      apply (H (PosixPath.join top (fst d), snd d) y); [|exact Hrest].
      apply in_or_app. left.
      apply in_map_iff. exists d. split; [reflexivity|exact Hd].
  - right. apply (H x y); [|exact Hdesc].
    apply in_or_app. now right.
Qed.

Lemma dir_at_descends comps :
  forall es top sub,
    dir_at es comps = Some sub ->
    forallb (fun n => negb (excluded n)) comps = true ->
    descends (top, es) (descend top comps, sub).
Proof.
  induction comps as [|n comps IH]; intros es top sub; cbn [dir_at forallb].
  - intros [= ->] _. apply descends_here.
  - destruct (lookup_dir n (subdirs es)) as [sub1|] eqn:L; [|discriminate].
    intros Hat Hclean. apply andb_true_iff in Hclean as [Hn Hclean].
    apply negb_true_iff in Hn.
    apply descends_into with (d := (n, sub1)).
    + apply prune_dirs_keeps; [|exact Hn]. now apply lookup_dir_In.
    + apply (IH sub1 (PosixPath.join top n) sub Hat Hclean).
Qed.

(** X8.  No source file is missed: a file whose name ends in [.py] and
    which lies, below the project directory, in a directory reached through
    names that are not excluded is handed to [parse_file], and the records
    [parse_file] extracts from it are records of the run. *)
Theorem every_source_file_is_parsed
    read_bytes chardet_detect read_text ast_parse pygments_css highlight
    project_path es output_file comps sub file :
  dir_at es comps = Some sub ->
  forallb (fun n => negb (excluded n)) comps = true ->
  In file (nondirs sub) ->
  endswith (lit ".py") file = true ->
  In (PosixPath.join (descend project_path comps) file)
     (py_files (os_walk project_path es))
  /\ forall r,
       In r (parse_file read_bytes chardet_detect read_text ast_parse
               (PosixPath.join (descend project_path comps) file)) ->
       In r (all_docstrings
               (process_project read_bytes chardet_detect read_text
                  ast_parse pygments_css highlight project_path es
                  output_file)).
Proof.
  intros Hat Hclean Hfile Hpy.
  assert (Hin : In (PosixPath.join (descend project_path comps) file)
                   (py_files (os_walk project_path es))).
  { unfold py_files. apply in_flat_map.
    exists (triple_of (descend project_path comps, sub)). split.
    - apply (walk_stack_complete _ (project_path, es));
        [now left|now apply dir_at_descends].
    - cbn [triple_of fst snd]. apply in_map, filter_In. auto. }
  split; [exact Hin|].
  intros r Hr. rewrite run_all_docstrings. apply in_flat_map. eauto.
Qed.

Lemma every_source_file_is_parsed_witness :
  In (lit "./pkg/shapes.py") (py_files (os_walk (lit ".") Sample.project))
  /\ In Sample.area_record (all_docstrings Sample.run).
Proof.
  destruct (every_source_file_is_parsed
              Sample.read_bytes Sample.chardet_detect Sample.read_text
              Sample.ast_parse Sample.pygments_css Sample.highlight
              (lit ".") Sample.project (lit "documentation.html")
              [lit "pkg"] [File (lit "shapes.py")] (lit "shapes.py"))
    as [Hin Hrecords]; try reflexivity.
  - left. reflexivity.
  - split; [exact Hin|]. apply Hrecords.
    vm_compute. right. right. left. reflexivity.
Defined.

(** ** Files that are not sources *)

Lemma subdirs_without_file es1 f es2 :
  subdirs (es1 ++ File f :: es2) = subdirs (es1 ++ es2).
Proof. unfold subdirs. now rewrite !flat_map_app. Qed.

Lemma nondirs_with_file es1 f es2 :
  nondirs (es1 ++ File f :: es2) = nondirs es1 ++ f :: nondirs es2.
Proof. unfold nondirs. now rewrite flat_map_app. Qed.

Lemma py_files_without_file project_path es1 f es2 :
  endswith (lit ".py") f = false ->
  py_files (os_walk project_path (es1 ++ File f :: es2))
  = py_files (os_walk project_path (es1 ++ es2)).
Proof.
  intros Hf. unfold os_walk. simp walk_stack.
  rewrite subdirs_without_file. unfold py_files. cbn [flat_map fst snd].
  f_equal. f_equal.
  rewrite nondirs_with_file. unfold nondirs at 3.
  rewrite flat_map_app. fold (nondirs es1). fold (nondirs es2).
  rewrite !filter_app. cbn [filter]. now rewrite Hf.
Qed.

(** X9.  A file of the project directory whose name does not end in [.py]
    changes nothing of a run: the records, the skipped files and the page
    written are those of the run without the file.  In particular the page
    a run writes into the project directory is not read as a source by the
    next run. *)
Theorem other_files_do_not_matter
    read_bytes chardet_detect read_text ast_parse pygments_css highlight
    project_path es1 f es2 output_file :
  endswith (lit ".py") f = false ->
  process_project read_bytes chardet_detect read_text ast_parse
    pygments_css highlight project_path (es1 ++ File f :: es2) output_file
  = process_project read_bytes chardet_detect read_text ast_parse
      pygments_css highlight project_path (es1 ++ es2) output_file.
Proof.
  intros Hf. unfold process_project.
  rewrite !visit_dirs_collect, (py_files_without_file _ _ _ _ Hf).
  reflexivity.
Qed.

Lemma other_files_do_not_matter_witness :
  main Sample.read_bytes Sample.chardet_detect Sample.read_text
       Sample.ast_parse Sample.pygments_css Sample.highlight
       (Sample.project ++ File (lit "documentation.html") :: [])
  = main Sample.read_bytes Sample.chardet_detect Sample.read_text
         Sample.ast_parse Sample.pygments_css Sample.highlight
         (Sample.project ++ []).
Proof.
  apply (other_files_do_not_matter
           Sample.read_bytes Sample.chardet_detect Sample.read_text
           Sample.ast_parse Sample.pygments_css Sample.highlight
           (lit ".") Sample.project (lit "documentation.html") []
           (lit "documentation.html")).
  vm_compute. reflexivity.
Defined.

(** ** A run without records *)

(** X10.  When no source file gives a record (an empty directory, or only
    failing or undocumented files), the run still writes a page: the fixed
    head, the style sheet and the fixed frame, with an empty sidebar and an
    empty content area; and every source file is reported as skipped. *)
Theorem run_without_records
    read_bytes chardet_detect read_text ast_parse pygments_css highlight
    project_path es output_file :
  (forall file_path,
      In file_path (py_files (os_walk project_path es)) ->
      parse_file read_bytes chardet_detect read_text ast_parse file_path
      = []) ->
  let run :=
    process_project read_bytes chardet_detect read_text ast_parse
      pygments_css highlight project_path es output_file in
  all_docstrings run = []
  /\ skipped_files run = py_files (os_walk project_path es)
  /\ written run
     = (output_file,
        html_head ++ pygments_css ++ html_sidebar_head ++ content_open
        ++ html_close).
Proof.
  intros Hnone run.
  assert (Hdocs : all_docstrings run = []).
  { unfold run. rewrite run_all_docstrings.
    revert Hnone. generalize (py_files (os_walk project_path es)).
    induction l as [|p l IH]; intros Hnone; [reflexivity|].
    cbn [flat_map]. rewrite (Hnone p) by now left.
    apply IH. intros q Hq. apply Hnone. now right. }
  split; [exact Hdocs|]. split.
  - unfold run. rewrite run_skipped_files.
    revert Hnone. generalize (py_files (os_walk project_path es)).
    induction l as [|p l IH]; intros Hnone; [reflexivity|].
    cbn [filter]. rewrite (Hnone p) by now left. cbn [is_empty].
    f_equal. apply IH. intros q Hq. apply Hnone. now right.
  - change (written run)
      with (output_file,
            html_document pygments_css highlight (all_docstrings run)).
    rewrite Hdocs, html_document_text. reflexivity.
Qed.

Lemma run_without_records_witness :
  written
    (process_project Sample.read_bytes Sample.chardet_detect
       Sample.read_text Sample.ast_parse Sample.pygments_css
       Sample.highlight (lit ".")
       [File (lit "bad.py"); File (lit "README.md")] (lit "out.html"))
  = (lit "out.html",
     html_head ++ Sample.pygments_css ++ html_sidebar_head ++ content_open
     ++ html_close).
Proof.
  apply (run_without_records
           Sample.read_bytes Sample.chardet_detect Sample.read_text
           Sample.ast_parse Sample.pygments_css Sample.highlight
           (lit ".") [File (lit "bad.py"); File (lit "README.md")]
           (lit "out.html")).
  intros file_path Hin. vm_compute in Hin.
  destruct Hin as [<-|[]]. vm_compute. reflexivity.
Defined.

(** ** Anchors and headers of the content blocks *)

Lemma content_anchor highlight r :
  occurs (lit "<div class=" ++ dq ++ lit "docstring" ++ dq ++ lit " id="
          ++ dq ++ doc_name r ++ dq ++ lit ">")
         (content_text highlight r).
Proof.
  unfold content_text, doc_block, function_header. spell_out. scan.
Qed.

(** X11.  The anchor of a content block is the name of its record alone:
    when two records of the set carry the same name (the same function name
    in two files, say), the page holds two blocks with the same [id]. *)
Theorem same_name_same_anchor pygments_css highlight d1 r1 d2 r2 d3 :
  doc_name r1 = doc_name r2 ->
  let anchor :=
    lit "<div class=" ++ dq ++ lit "docstring" ++ dq ++ lit " id=" ++ dq
    ++ doc_name r1 ++ dq ++ lit ">" in
  exists a b c,
    html_document pygments_css highlight (d1 ++ r1 :: d2 ++ r2 :: d3)
    = a ++ anchor ++ b ++ anchor ++ c.
Proof.
  intros Hname anchor.
  destruct (content_anchor highlight r1) as (x1 & y1 & H1).
  destruct (content_anchor highlight r2) as (x2 & y2 & H2).
  rewrite <- Hname in H2. fold anchor in H1, H2.
  rewrite html_document_text.
  rewrite flat_map_app. cbn [flat_map]. rewrite flat_map_app.
  cbn [flat_map]. rewrite H1, H2.
  exists (html_head ++ pygments_css ++ html_sidebar_head
          ++ flat_map sidebar_text
               (group_by_file (d1 ++ r1 :: d2 ++ r2 :: d3))
          ++ content_open
          ++ flat_map (content_text highlight) d1 ++ x1),
    (y1 ++ flat_map (content_text highlight) d2 ++ x2),
    (y2 ++ flat_map (content_text highlight) d3 ++ html_close).
  rewrite <- !app_assoc. reflexivity.
Qed.

Lemma same_name_same_anchor_witness :
  exists a b c,
    html_document Sample.pygments_css Sample.highlight
      ([] ++ Sample.add_record :: []
          ++ Sample2.other_add_record :: [])
    = a ++ (lit "<div class=" ++ dq ++ lit "docstring" ++ dq ++ lit " id="
            ++ dq ++ lit "add" ++ dq ++ lit ">")
        ++ b
        ++ (lit "<div class=" ++ dq ++ lit "docstring" ++ dq ++ lit " id="
            ++ dq ++ lit "add" ++ dq ++ lit ">")
        ++ c.
Proof.
  apply (same_name_same_anchor
           Sample.pygments_css Sample.highlight
           [] Sample.add_record [] Sample2.other_add_record []).
  reflexivity.
Defined.

(** X12.  The header of a content block shows the keyword [async def] for
    a record taken from an [async def] node and [def] for every other
    record, a class or a module included. *)
Theorem keyword_of_record content file_path highlight n r :
  visit_node content file_path n = Ok (Some r) ->
  occurs (lit "<span class=" ++ dq ++ lit "keyword" ++ dq ++ lit ">"
          ++ match ntype n with
             | AsyncFunctionDef => lit "async def"
             | _ => lit "def"
             end
          ++ lit "</span>")
         (content_text highlight r).
Proof.
  intros Hv.
  apply visit_node_fields in Hv as (_ & _ & _ & Htype & Hdoc).
  unfold content_text. rewrite Htype.
  destruct (ntype n); try discriminate; cbn [type_name];
    match goal with
    | |- context [str_eqb ?a ?b] =>
        let v := eval vm_compute in (str_eqb a b) in
        change (str_eqb a b) with v
    end;
    cbv iota; unfold doc_block, function_header; spell_out; scan.
Qed.

Lemma keyword_of_record_witness :
  occurs (lit "<span class=" ++ dq ++ lit "keyword" ++ dq ++ lit ">"
          ++ lit "def" ++ lit "</span>")
         (content_text Sample.highlight Sample.shape_record).
Proof.
  apply (keyword_of_record
           Sample.shapes_py (lit "./pkg/shapes.py") Sample.highlight
           Sample.shape_class Sample.shape_record).
  vm_compute. reflexivity.
Defined.

(** ** Snippets of nested declarations *)

Lemma firstn_add {A} (a b : nat) (l : list A) :
  firstn (a + b) l = firstn a l ++ firstn b (skipn a l).
Proof.
  revert l. induction a as [|a IH]; intros [|x l]; simpl;
    try reflexivity.
  - now rewrite firstn_nil.
  - now rewrite IH.
Qed.

Lemma span_nested {A} (ls : list A) (s1 s2 e2 e1 : nat) :
  s1 <= s2 -> s2 <= e2 -> e2 <= e1 ->
  exists a b,
    firstn (e1 - s1) (skipn s1 ls)
    = a ++ firstn (e2 - s2) (skipn s2 ls) ++ b.
Proof.
  intros H1 H2 H3.
  replace (e1 - s1) with ((s2 - s1) + ((e2 - s2) + (e1 - e2))) by lia.
  rewrite !firstn_add, !skipn_skipn.
  replace (s2 - s1 + s1) with s2 by lia.
  eauto.
Qed.

Lemma join_cons sep p parts :
  parts <> [] -> PyStr.join sep (p :: parts) = p ++ sep ++ PyStr.join sep parts.
Proof. destruct parts; [congruence|reflexivity]. Qed.

Lemma join_app sep m b :
  m <> [] -> b <> [] ->
  PyStr.join sep (m ++ b) = PyStr.join sep m ++ sep ++ PyStr.join sep b.
Proof.
  intros Hm Hb. induction m as [|p m IH]; [congruence|].
  destruct m as [|q m].
  - cbn [app]. now rewrite join_cons.
  - change ((p :: q :: m) ++ b) with (p :: ((q :: m) ++ b)).
    rewrite join_cons by discriminate.
    rewrite IH by discriminate.
    rewrite (join_cons sep p (q :: m)) by discriminate.
    now rewrite <- !app_assoc.
Qed.

Lemma occurs_refl p : occurs p p.
Proof. exists [], []. now rewrite app_nil_r. Qed.

Lemma occurs_nil s : occurs [] s.
Proof. now exists [], s. Qed.

Lemma occurs_join sep a m b :
  occurs (PyStr.join sep m) (PyStr.join sep (a ++ m ++ b)).
Proof.
  destruct m as [|x m]; [apply occurs_nil|].
  induction a as [|p a IH].
  - rewrite app_nil_l. destruct b as [|y b].
    + rewrite app_nil_r. apply occurs_refl.
    + rewrite (join_app sep (x :: m) (y :: b)) by discriminate.
      apply occurs_app_l, occurs_refl.
  - change ((p :: a) ++ (x :: m) ++ b) with (p :: (a ++ (x :: m) ++ b)).
    assert (Hne : a ++ (x :: m) ++ b <> []).
    { intros E. apply app_eq_nil in E as [_ E]. discriminate E. }
    rewrite (join_cons sep p _ Hne).
    now apply occurs_app_r, occurs_app_r.
Qed.

Lemma visit_node_code content file_path n l e r :
  lineno n = Some l ->
  end_lineno n = Some e ->
  visit_node content file_path n = Ok (Some r) ->
  doc_code r = function_code content (l - 1) e.
Proof.
  intros Hl He Hv. unfold visit_node in Hv. rewrite Hl, He in Hv.
  destruct (extract_docstring n) as [d|]; [|discriminate].
  destruct (truthy d); [|discriminate].
  injection Hv as <-. reflexivity.
Qed.

(** X13.  The snippet of a declaration nested in another (a method in its
    class) is part of the snippet of the outer one: when the line span of
    the inner node lies within the span of the outer node, the inner
    snippet occurs in the outer snippet. *)
Theorem nested_snippet_inside
    content file_path outer inner lo eo li ei ro ri :
  lineno outer = Some lo -> end_lineno outer = Some eo ->
  lineno inner = Some li -> end_lineno inner = Some ei ->
  (1 <= lo <= li)%Z -> (li <= ei <= eo)%Z ->
  visit_node content file_path outer = Ok (Some ro) ->
  visit_node content file_path inner = Ok (Some ri) ->
  occurs (doc_code ri) (doc_code ro).
Proof.
  intros Hlo Heo Hli Hei H1 H2 Hvo Hvi.
  rewrite (visit_node_code _ _ _ _ _ _ Hlo Heo Hvo).
  rewrite (visit_node_code _ _ _ _ _ _ Hli Hei Hvi).
  unfold function_code. rewrite !py_slice_span by lia.
  destruct (span_nested (splitlines content)
              (Z.to_nat (lo - 1)) (Z.to_nat (li - 1))
              (Z.to_nat ei) (Z.to_nat eo))
    as (a & b & ->); try lia.
  apply occurs_join.
Qed.

Lemma nested_snippet_inside_witness :
  occurs (doc_code Sample.area_record) (doc_code Sample.shape_record).
Proof.
  apply (nested_snippet_inside
           Sample.shapes_py (lit "./pkg/shapes.py")
           Sample.shape_class Sample.area_def 1 5 3 5
           Sample.shape_record Sample.area_record);
    try reflexivity; try lia; vm_compute; reflexivity.
Defined.

(** ** The docstring of a record *)

Lemma lstrip_split s :
  exists a, s = a ++ lstrip s /\ Forall (fun c => is_space c = true) a.
Proof.
  induction s as [|c s (a & Hs & Ha)]; [now exists []|].
  cbn [lstrip]. destruct (is_space c) eqn:E.
  - exists (c :: a). split; [cbn [app]; now f_equal|now constructor].
  - now exists [].
Qed.

Lemma rstrip_split s :
  exists b, s = rstrip s ++ b /\ Forall (fun c => is_space c = true) b.
Proof.
  destruct (lstrip_split (rev s)) as (a & Hs & Ha).
  exists (rev a). split; [|now apply Forall_rev].
  unfold rstrip. rewrite <- rev_app_distr, <- Hs.
  now rewrite rev_involutive.
Qed.

(** X14.  The docstring of a record is the documentation text of its node
    with the white space at both ends removed and nothing else changed: the
    text is white space, then the docstring, then white space, and the
    docstring neither starts nor ends with white space. *)
Theorem docstring_is_trimmed_text content file_path n r :
  visit_node content file_path n = Ok (Some r) ->
  exists raw a b,
    get_docstring n = Some raw
    /\ raw = a ++ doc_docstring r ++ b
    /\ Forall (fun c => is_space c = true) a
    /\ Forall (fun c => is_space c = true) b
    /\ no_leading_space (doc_docstring r)
    /\ no_leading_space (rev (doc_docstring r)).
Proof.
  intros Hv.
  apply visit_node_docstring in Hv as (raw & Hraw & -> & _).
  destruct (lstrip_split raw) as (a & Ha & Hspa).
  destruct (rstrip_split (lstrip raw)) as (b & Hb & Hspb).
  exists raw, a, b. unfold strip.
  split; [exact Hraw|]. split; [now rewrite <- Hb|].
  split; [exact Hspa|]. split; [exact Hspb|]. split.
  - apply rstrip_no_leading_space, lstrip_no_leading_space.
  - unfold rstrip. rewrite rev_involutive. apply lstrip_no_leading_space.
Qed.

Lemma docstring_is_trimmed_text_witness :
  exists raw a b,
    get_docstring Sample2.padded_def = Some raw
    /\ raw = a ++ lit "Pads." ++ b
    /\ Forall (fun c => is_space c = true) a
    /\ Forall (fun c => is_space c = true) b.
Proof.
  destruct (docstring_is_trimmed_text
              Sample.util_py (lit "./util.py") Sample2.padded_def
              (mkDoc (lit "FunctionDef") (lit "pad") (lit "Pads.")
                     (lit "./util.py") (lit "util")
                     (lit "def add(a, b):")))
    as (raw & a & b & Hraw & Hsplit & Ha & Hb & _).
  - vm_compute. reflexivity.
  - exists raw, a, b. auto.
Defined.
